(** * text_creator: recording sessions, configuration store and hotkey bridge

    A shallow embedding of [src/text_creator.py].  The Python objects
    ([AudioRecorder], [TextCreatorApp]) become records, their methods become
    computations in a small state-and-exception monad, and everything the
    program reaches outside itself (the remote speech service, the sound
    device, the hotkey library, the file system) is an explicit [World]
    argument or an explicit part of the state.

    What is left out: [print] output, the Qt widgets, and the timing of
    threads.  The capture worker is seen through the two things it does to
    the recorder (append a block, or fail and reset the flag), each taken as
    one step.  The calls that can raise are the ones [World] answers for and
    the operations on the temporary directory; writing the two configuration
    files is taken to succeed. *)

From Stdlib Require Import ZArith String Ascii List Bool Lia.
From stdpp Require Import base option strings gmap list fin_maps.

Local Open Scope string_scope.
Local Open Scope list_scope.

(** ** Python strings *)

Module PyStr.

(** [str.isspace] on one character, for code points below 256:
    TAB..CR, FS..US, SPACE, NEL and NBSP. *)
Definition isspace (c : ascii) : bool :=
  let n := nat_of_ascii c in
  ((9 <=? n)%nat && (n <=? 13)%nat)
  || ((28 <=? n)%nat && (n <=? 32)%nat)
  || (n =? 133)%nat || (n =? 160)%nat.

Fixpoint lstrip (s : string) : string :=
  match s with
  | EmptyString => EmptyString
  | String c t => if isspace c then lstrip t else s
  end.

Fixpoint rstrip (s : string) : string :=
  match s with
  | EmptyString => EmptyString
  | String c t =>
      match rstrip t with
      | EmptyString => if isspace c then EmptyString else String c EmptyString
      | r => String c r
      end
  end.

(** [s.strip()] *)
Definition strip (s : string) : string := rstrip (lstrip s).

(** truth value of a string: [bool(s)] *)
Definition nonempty (s : string) : bool :=
  match s with EmptyString => false | _ => true end.

(** [needle in hay] *)
Fixpoint contains (needle hay : string) : bool :=
  String.prefix needle hay
  || match hay with
     | EmptyString => false
     | String _ t => contains needle t
     end.

Fixpoint all_space (s : string) : bool :=
  match s with
  | EmptyString => true
  | String c t => isspace c && all_space t
  end.

(** first and last character, when there is one *)
Definition first (s : string) : option ascii :=
  match s with EmptyString => None | String c _ => Some c end.

Fixpoint last (s : string) : option ascii :=
  match s with
  | EmptyString => None
  | String c EmptyString => Some c
  | String _ t => last t
  end.

End PyStr.

(** ** Configuration values

    The configuration maps string keys to JSON scalars.  A float is kept as
    the dyadic rational [m * 2^e] it denotes. *)

Inductive value :=
| VNone
| VBool (b : bool)
| VInt (z : Z)
| VFloat (m e : Z)
| VStr (s : string).

#[global] Instance value_eq_dec : EqDecision value.
Proof. solve_decision. Defined.

(** [bool(v)] *)
Definition truthy (v : value) : bool :=
  match v with
  | VNone => false
  | VBool b => b
  | VInt z => negb (z =? 0)%Z
  | VFloat m _ => negb (m =? 0)%Z
  | VStr s => PyStr.nonempty s
  end.

(** [type(v).__name__] *)
Definition type_name (v : value) : string :=
  match v with
  | VNone => "NoneType"
  | VBool _ => "bool"
  | VInt _ => "int"
  | VFloat _ _ => "float"
  | VStr _ => "str"
  end.

(** truth value of [d.get(k)] *)
Definition truthy_opt (o : option value) : bool :=
  match o with Some v => truthy v | None => false end.

Definition DEFAULT_MAIN_CONFIG : gmap string value :=
  <["model" := VStr "whisper-1"]>
  (<["language" := VStr "en"]>
  (<["energy_threshold" := VInt 500]>
  (<["record_timeout" := VFloat 1 1]>
  (<["phrase_timeout" := VFloat 3 0]> ∅)))).

Definition DEFAULT_SENSITIVE_CONFIG : gmap string value :=
  <["hotkey" := VStr ""]> (<["api_key" := VStr ""]> ∅).

(** ** The state of the program and of the things it touches *)

Definition sample := Z.
Definition chunk := list sample.

(** What other components can observe of a run, in the order it happened. *)
Inductive event :=
| StatusUpdate (msg : string)          (* status_update.emit(msg) *)
| RecordingStateChanged (b : bool)     (* recording_state_changed.emit(b) *)
| SingleShot (ms : Z)                  (* QTimer.singleShot(ms, self._show_api_key_settings) *)
| ModelsList (key : string)            (* client.models.list() *)
| TranscriptionsCreate (key : string) (model language : value) (audio : list sample)
| ThreadStart (t : nat)
| ThreadJoin (t : nat)
| KeyboardWrite (text : string)        (* keyboard.write(text) *)
| OpenSettings.                        (* the modal settings window is shown *)

#[global] Instance event_eq_dec : EqDecision event.
Proof. solve_decision. Defined.

(** The fields of [AudioRecorder] (its configuration is the dictionary it
    shares with the application, see [Sys]). *)
Record Recorder := mkRecorder {
  is_recording : bool;
  audio_data : list chunk;
  recording_thread : option nat;
  client : option string            (* the OpenAI client, known by its key *)
}.

(** A file of the temporary directory: what was written, and how many
    handles are open on it. *)
Record tmpfile := mkTmp {
  written : list sample;
  rate : Z;
  handles : nat
}.

(** An on-disk configuration document, for the two kinds of content the
    model covers: a JSON object whose values are scalars, or content that
    [dict.update(json.load(f))] rejects before it has changed anything (a
    file that is not JSON, or a JSON number, boolean or [null]).  A JSON
    array of pairs, which [update] would apply entry by entry, is not
    represented. *)
Inductive document :=
| Malformed
| Object (m : gmap string value).

Record Sys := mkSys {
  config : gmap string value;       (* one dict, aliased by app and recorder *)
  recorder : Recorder;
  app_is_recording : option bool;   (* TextCreatorApp.is_recording, [None] until set *)
  hotkeys : list value;             (* what the keyboard library has hooked *)
  main_file : option document;      (* MAIN_CONFIG_FILE *)
  sensitive_file : option document; (* SENSITIVE_CONFIG_FILE *)
  tmp : gmap string tmpfile;
  threads : nat;                    (* number of Thread objects made so far *)
  trace : list event
}.

Inductive platform := Posix | Windows.

(** What the outside answers during one call.  [None] in an [option string]
    means the call returns, [Some msg] that it raises an exception whose
    [str] is [msg]. *)
Record World := mkWorld {
  os : platform;
  models_list : string -> option string;
  query_devices : option string;
  thread_start : option string;
  transcriptions_create : string -> value -> value -> list sample -> string + string;
  parse_hotkey : value -> option string
}.

(** ** State and exceptions *)

Inductive outcome (A : Type) :=
| Ret (a : A)
| Raise (e : string).
Arguments Ret {A} a.
Arguments Raise {A} e.

Definition M (A : Type) : Type := Sys -> outcome A * Sys.

Definition ret {A} (a : A) : M A := fun s => (Ret a, s).
Definition raise {A} (e : string) : M A := fun s => (Raise e, s).

Definition bind {A B} (m : M A) (k : A -> M B) : M B :=
  fun s => match m s with
           | (Ret a, s1) => k a s1
           | (Raise e, s1) => (Raise e, s1)
           end.

(** [try: m  except Exception as e: h e]; what [m] did to the state before
    raising stays done. *)
Definition try_except {A} (m : M A) (h : string -> M A) : M A :=
  fun s => match m s with
           | (Ret a, s1) => (Ret a, s1)
           | (Raise e, s1) => h e s1
           end.

(** [try: m  finally: f]; also runs when [m] leaves by [return]. *)
Definition try_finally {A} (m : M A) (f : M unit) : M A :=
  fun s => match m s with
           | (r, s1) =>
               match f s1 with
               | (Ret _, s2) => (r, s2)
               | (Raise e, s2) => (Raise e, s2)
               end
           end.

Definition gets {A} (f : Sys -> A) : M A := fun s => (Ret (f s), s).
Definition modify (f : Sys -> Sys) : M unit := fun s => (Ret tt, f s).

#[global] Instance M_ret : MRet M := @ret.
#[global] Instance M_bind : MBind M := fun A B k m => bind m k.

(** *** Field updates *)

Definition with_recorder (f : Recorder -> Recorder) (s : Sys) : Sys :=
  mkSys (config s) (f (recorder s)) (app_is_recording s) (hotkeys s)
        (main_file s) (sensitive_file s) (tmp s) (threads s) (trace s).

Definition set_is_recording (b : bool) : M unit :=
  modify (with_recorder (fun r =>
    mkRecorder b (audio_data r) (recording_thread r) (client r))).

Definition set_audio_data (d : list chunk) : M unit :=
  modify (with_recorder (fun r =>
    mkRecorder (is_recording r) d (recording_thread r) (client r))).

Definition set_recording_thread (t : option nat) : M unit :=
  modify (with_recorder (fun r =>
    mkRecorder (is_recording r) (audio_data r) t (client r))).

Definition set_client (c : option string) : M unit :=
  modify (with_recorder (fun r =>
    mkRecorder (is_recording r) (audio_data r) (recording_thread r) c)).

Definition set_config (c : gmap string value) : M unit :=
  modify (fun s =>
    mkSys c (recorder s) (app_is_recording s) (hotkeys s)
          (main_file s) (sensitive_file s) (tmp s) (threads s) (trace s)).

Definition set_app_is_recording (b : bool) : M unit :=
  modify (fun s =>
    mkSys (config s) (recorder s) (Some b) (hotkeys s)
          (main_file s) (sensitive_file s) (tmp s) (threads s) (trace s)).

Definition set_hotkeys (h : list value) : M unit :=
  modify (fun s =>
    mkSys (config s) (recorder s) (app_is_recording s) h
          (main_file s) (sensitive_file s) (tmp s) (threads s) (trace s)).

Definition set_files (m se : option document) : M unit :=
  modify (fun s =>
    mkSys (config s) (recorder s) (app_is_recording s) (hotkeys s)
          m se (tmp s) (threads s) (trace s)).

Definition set_tmp (t : gmap string tmpfile) : M unit :=
  modify (fun s =>
    mkSys (config s) (recorder s) (app_is_recording s) (hotkeys s)
          (main_file s) (sensitive_file s) t (threads s) (trace s)).

Definition new_thread : M nat :=
  fun s =>
    (Ret (threads s),
     mkSys (config s) (recorder s) (app_is_recording s) (hotkeys s)
           (main_file s) (sensitive_file s) (tmp s) (S (threads s)) (trace s)).

Definition emit (e : event) : M unit :=
  modify (fun s =>
    mkSys (config s) (recorder s) (app_is_recording s) (hotkeys s)
          (main_file s) (sensitive_file s) (tmp s) (threads s) (trace s ++ [e])).

(** a call that raises when the outside says so *)
Definition call (r : option string) : M unit :=
  match r with
  | None => ret tt
  | Some msg => raise msg
  end.

Definition run {A} (m : M A) (s : Sys) : Sys := snd (m s).
Definition result {A} (m : M A) (s : Sys) : outcome A := fst (m s).

(** [d[k]]: raises [KeyError] (whose [str] is the quoted key) when absent *)
Definition subscript (k : string) : M value :=
  c ← gets config;
  match c !! k with
  | Some v => ret v
  | None => raise ("'" +:+ k +:+ "'")
  end.

(** ** The temporary directory *)

(** [tempfile.NamedTemporaryFile(suffix='.wav', delete=False)]: a new, empty
    file under a name no file has yet, with one handle open on it. *)
Definition NamedTemporaryFile : M string :=
  t ← gets tmp;
  let name := fresh (dom t) in
  set_tmp (<[name := mkTmp [] 0 1]> t);;
  ret name.

(** [sf.write(name, data, rate)] *)
Definition sf_write (name : string) (data : list sample) (r : Z) : M unit :=
  t ← gets tmp;
  let h := match t !! name with Some f => handles f | None => 0 end in
  set_tmp (<[name := mkTmp data r h]> t).

(** [open(name, 'rb')] *)
Definition open_rb (name : string) : M unit :=
  t ← gets tmp;
  match t !! name with
  | Some f => set_tmp (<[name := mkTmp (written f) (rate f) (S (handles f))]> t)
  | None => raise ("[Errno 2] No such file or directory: '" +:+ name +:+ "'")
  end.

(** leaving a [with] block that opened [name] *)
Definition close (name : string) : M unit :=
  t ← gets tmp;
  match t !! name with
  | Some f => set_tmp (<[name := mkTmp (written f) (rate f) (pred (handles f))]> t)
  | None => ret tt
  end.

(** [os.unlink(name)].  The Python library reference, under [os.remove]:
    "On Windows, attempting to remove a file that is in use causes an
    exception to be raised; on Unix, the directory entry is removed". *)
Definition os_unlink (w : World) (name : string) : M unit :=
  t ← gets tmp;
  match t !! name with
  | None => raise ("[Errno 2] No such file or directory: '" +:+ name +:+ "'")
  | Some f =>
      match os w, handles f with
      | Windows, S _ =>
          raise ("[WinError 32] The process cannot access the file because "
                 +:+ "it is being used by another process: '" +:+ name +:+ "'")
      | _, _ => set_tmp (delete name t)
      end
  end.

(** ** AudioRecorder *)

Definition sample_rate : Z := 16000.

Definition _init_openai_client (w : World) : M bool :=
  try_except
    (c ← gets config;
     let api_key := c !! "api_key" in
     match api_key with
     | Some (VStr k) =>
         if negb (PyStr.nonempty k) || negb (PyStr.nonempty (PyStr.strip k))
            || PyStr.contains "your-api-key" k
         then
           emit (StatusUpdate "Error: No valid OpenAI API key found in config");;
           ret false
         else
           set_client (Some k);;
           try_except
             (emit (ModelsList k);;
              call (models_list w k);;
              ret true)
             (fun e =>
                emit (StatusUpdate ("Error testing OpenAI API: " +:+ e));;
                set_client None;;
                ret false)
     | Some v =>
         if negb (truthy v)
         then
           emit (StatusUpdate "Error: No valid OpenAI API key found in config");;
           ret false
         else raise ("'" +:+ type_name v +:+ "' object has no attribute 'strip'")
     | None =>
         emit (StatusUpdate "Error: No valid OpenAI API key found in config");;
         ret false
     end)
    (fun e =>
       emit (StatusUpdate ("Error initializing OpenAI client: " +:+ e));;
       set_client None;;
       ret false).

(** [AudioRecorder.__init__], on the dictionary already in [config] *)
Definition AudioRecorder_init (w : World) : M unit :=
  modify (with_recorder (fun _ => mkRecorder false [] None None));;
  _init_openai_client w;;
  ret tt.

Definition start_recording (w : World) : M bool :=
  try_except
    (r ← gets recorder;
     if is_recording r then ret false
     else
       ok ← match client r with
            | Some _ => ret true
            | None => _init_openai_client w
            end;
       if negb ok then
         emit (StatusUpdate
                 "Error: Failed to initialize OpenAI client. Please check your API key.");;
         emit (SingleShot 1000);;
         ret false
       else
         call (query_devices w);;
         set_is_recording true;;
         set_audio_data [];;
         emit (StatusUpdate "Recording...");;
         emit (RecordingStateChanged true);;
         t ← new_thread;
         set_recording_thread (Some t);;
         call (thread_start w);;
         emit (ThreadStart t);;
         ret true)
    (fun e =>
       emit (StatusUpdate ("Error in start_recording: " +:+ e));;
       set_is_recording false;;
       emit (RecordingStateChanged false);;
       ret false).

Definition stop_recording (w : World) : M string :=
  r ← gets recorder;
  if negb (is_recording r) then ret ""
  else
    set_is_recording false;;
    emit (RecordingStateChanged false);;
    match recording_thread r with
    | Some t => emit (ThreadJoin t)
    | None => ret tt
    end;;
    data ← gets (fun s => audio_data (recorder s));
    match data with
    | [] =>
        emit (StatusUpdate "No audio recorded");;
        ret ""
    | _ =>
        let audio_np := concat data in
        f ← NamedTemporaryFile;
        try_finally
          (sf_write f audio_np sample_rate;;
           try_finally
             (try_except
                (emit (StatusUpdate "Transcribing...");;
                 open_rb f;;
                 response ←
                   try_finally
                     (key ← match client r with
                            | Some k => ret k
                            | None => raise "'NoneType' object has no attribute 'audio'"
                            end;
                      model ← subscript "model";
                      language ← subscript "language";
                      emit (TranscriptionsCreate key model language audio_np);;
                      match transcriptions_create w key model language audio_np with
                      | inl text => ret text
                      | inr msg => raise msg
                      end)
                     (close f);
                 let text := PyStr.strip response in
                 (if PyStr.nonempty text
                  then emit (StatusUpdate "Transcription complete")
                  else ret tt);;
                 ret text)
                (fun e =>
                   emit (StatusUpdate ("Error in transcription: " +:+ e));;
                   ret ""))
             (try_except (os_unlink w f) (fun _ => ret tt)))
          (close f)
    end.

(** The capture worker [_record_audio], seen from the controller: while the
    stream is open each delivered block runs [audio_callback]; if the stream
    raises, the handler of [_record_audio] runs. *)
Definition audio_callback (indata : chunk) : M unit :=
  r ← gets recorder;
  if is_recording r then set_audio_data (audio_data r ++ [indata]) else ret tt.

Definition _record_audio_failed (e : string) : M unit :=
  emit (StatusUpdate ("Error in audio stream: " +:+ e));;
  set_is_recording false;;
  emit (RecordingStateChanged false).

(** [AudioRecorder.update_config] *)
Definition recorder_update_config (w : World) (new_config : gmap string value) : M bool :=
  set_config new_config;;
  r ← gets recorder;
  (if is_recording r then stop_recording w;; ret tt else ret tt);;
  success ← _init_openai_client w;
  (if (success : bool)
   then emit (StatusUpdate "API key updated successfully")
   else emit (StatusUpdate "Error: Failed to initialize with new API key"));;
  ret success.

(** ** TextCreatorApp *)

(** [json.load] of a configuration file, then [dict.update] with it, inside
    the [try] whose handler only prints *)
Definition update_from (f : option document) (d : gmap string value) : gmap string value :=
  match f with
  | Some (Object m) => m ∪ d
  | Some Malformed => d
  | None => d
  end.

Definition _load_config : M (gmap string value) :=
  mf ← gets main_file;
  let main_config := update_from mf DEFAULT_MAIN_CONFIG in
  sf ← gets sensitive_file;
  let sensitive_config := update_from sf DEFAULT_SENSITIVE_CONFIG in
  let combined_config := sensitive_config ∪ main_config in
  ret combined_config.

(** one turn of the loop of [_save_config] over [self.config.items()] *)
Definition split_item (key : string) (v : value)
    (acc : gmap string value * gmap string value) : gmap string value * gmap string value :=
  let '(main_config, sensitive_config) := acc in
  if decide (is_Some (DEFAULT_SENSITIVE_CONFIG !! key))
  then (main_config, <[key := v]> sensitive_config)
  else (<[key := v]> main_config, sensitive_config).

Definition _save_config : M unit :=
  c ← gets config;
  let '(main_config, sensitive_config) := map_fold split_item (∅, ∅) c in
  set_files (Some (Object main_config)) (Some (Object sensitive_config)).

Definition keyboard_unhook_all : M unit := set_hotkeys [].

Definition keyboard_add_hotkey (w : World) (combination : value) : M unit :=
  call (parse_hotkey w combination);;
  h ← gets hotkeys;
  set_hotkeys (h ++ [combination]).

Definition register_hotkey (w : World) : M unit :=
  try_except
    (keyboard_unhook_all;;
     c ← gets config;
     hotkey_combination ←
       (if truthy_opt (c !! "hotkey") then ret (default VNone (c !! "hotkey"))
        else
          set_config (<["hotkey" := VStr "ctrl+alt+d"]> c);;
          _save_config;;
          ret (VStr "ctrl+alt+d"));
     keyboard_add_hotkey w hotkey_combination)
    (fun _ => ret tt).

Definition toggle_recording (w : World) : M unit :=
  try_except
    (a ← gets app_is_recording;
     match a with None => set_app_is_recording false | Some _ => ret tt end;;
     a ← gets app_is_recording;
     if default false a then
       set_app_is_recording false;;
       try_except
         (text ← stop_recording w;
          if PyStr.nonempty text && PyStr.nonempty (PyStr.strip text)
          then emit (KeyboardWrite text)
          else ret tt)
         (fun _ => ret tt)
     else
       try_except
         (ok ← start_recording w;
          if (ok : bool) then set_app_is_recording true else ret tt)
         (fun _ => ret tt))
    (fun _ => ret tt).

(** [TextCreatorApp.update_config] (the definition in force: the second one
    of the class body) *)
Definition update_config (w : World) (new_config : gmap string value) : M unit :=
  set_config new_config;;
  _save_config;;
  register_hotkey w;;
  c ← gets config;
  recorder_update_config w c;;
  ret tt.

(** [SettingsWindow.__init__] on a copy of [c], as far as it can fail:
    [init_ui] hands [c['api_key']], when true, to [QTextEdit.setText], and
    [c['hotkey']] to the constructor of [QLineEdit].  PyQt takes a [str]
    there, and [None] as the parent widget of the line edit; any other
    value is a [TypeError] (the message kept is the part that names the
    type), and a missing [hotkey] is a [KeyError]. *)
Definition SettingsWindow_init (c : gmap string value) : M unit :=
  match c !! "api_key" with
  | Some (VStr _) | None => ret tt
  | Some v =>
      if truthy v
      then raise ("argument 1 has unexpected type '" +:+ type_name v +:+ "'")
      else ret tt
  end;;
  match c !! "hotkey" with
  | Some (VStr _) | Some VNone => ret tt
  | Some v => raise ("argument 1 has unexpected type '" +:+ type_name v +:+ "'")
  | None => raise "'hotkey'"
  end.

(** [_open_settings]: the window is built, then shown *)
Definition _open_settings : M unit :=
  c ← gets config;
  SettingsWindow_init c;;
  emit OpenSettings.

Definition _check_required_config : M unit :=
  c ← gets config;
  if negb (truthy_opt (c !! "api_key")) || negb (truthy_opt (c !! "hotkey"))
  then _open_settings
  else ret tt.

(** [TextCreatorApp.__init__] on a machine whose two configuration files are
    [mf] and [sf] *)
Definition boot (mf sf : option document) : Sys :=
  mkSys ∅ (mkRecorder false [] None None) None [] mf sf ∅ 0 [].

Definition TextCreatorApp_init (w : World) : M unit :=
  c ← _load_config;
  set_config c;;
  AudioRecorder_init w;;
  _check_required_config;;
  register_hotkey w.

(** ** Reading a run *)

Inductive session_state := Idle | Recording.

Definition state_of (s : Sys) : session_state :=
  if is_recording (recorder s) then Recording else Idle.

(** What can happen to a recording session: the two calls of the controller
    and the two things its capture worker does. *)
Inductive action :=
| Start
| Stop
| Block (indata : chunk)
| StreamFailure (e : string).

Definition step (w : World) (a : action) : M unit :=
  match a with
  | Start => start_recording w;; ret tt
  | Stop => stop_recording w;; ret tt
  | Block indata => audio_callback indata
  | StreamFailure e => _record_audio_failed e
  end.

Definition status_messages (evs : list event) : list string :=
  omap (fun e => match e with StatusUpdate m => Some m | _ => None end) evs.

Definition is_remote_call (e : event) : bool :=
  match e with TranscriptionsCreate _ _ _ _ => true | _ => false end.

Definition remote_calls (evs : list event) : list event :=
  List.filter is_remote_call evs.

Definition keystrokes (evs : list event) : list string :=
  omap (fun e => match e with KeyboardWrite t => Some t | _ => None end) evs.

(** the events a run from [s] to [s'] added *)
Definition events_since (s s' : Sys) : list event :=
  drop (length (trace s)) (trace s').

(** the combination [register_hotkey] hands to the keyboard library *)
Definition effective_hotkey (c : gmap string value) : value :=
  if truthy_opt (c !! "hotkey") then default VNone (c !! "hotkey")
  else VStr "ctrl+alt+d".

(** [k in doc], [doc[k]] for an on-disk document *)
Definition doc_lookup (f : option document) (k : string) : option value :=
  match f with
  | Some (Object m) => m !! k
  | _ => None
  end.

(** ** Sample machines *)

Module Sample.

Definition online (p : platform) (answer : string + string) : World :=
  mkWorld p (fun _ => None) None None (fun _ _ _ _ => answer) (fun _ => None).

Definition secrets : option document :=
  Some (Object (<["api_key" := VStr "sk-test"]> (<["hotkey" := VStr "f9"]> ∅))).

(** the application after start-up with a working key *)
Definition idle : Sys :=
  run (TextCreatorApp_init (online Posix (inl ""))) (boot None secrets).

(** ... after the hotkey was pressed once *)
Definition recording : Sys :=
  run (toggle_recording (online Posix (inl ""))) idle.

(** ... and three blocks were captured *)
Definition captured : Sys :=
  run (audio_callback [1; 2]%Z;; audio_callback [3]%Z;; audio_callback [4; 5]%Z)
      recording.

(** start-up without any configuration file *)
Definition unconfigured : Sys :=
  run (TextCreatorApp_init (online Posix (inl ""))) (boot None None).

(** a keyboard library that knows the usual key names and not [nosuchkey] *)
Definition strict : World :=
  mkWorld Posix (fun _ => None) None None (fun _ _ _ _ => inl "")
    (fun combination =>
       match combination with
       | VStr k =>
           if PyStr.contains "nosuchkey" k
           then Some "Key 'nosuchkey' is not mapped to any known key."
           else None
       | _ => None
       end).

(** a machine whose two documents both set [language] *)
Definition overlapping : Sys :=
  boot (Some (Object (<["language" := VStr "de"]> (<["model" := VStr "gpt-4o-transcribe"]> ∅))))
       (Some (Object (<["language" := VStr "fr"]> (<["api_key" := VStr "sk-test"]> ∅)))).

End Sample.

(** ** Vocabulary of the statements *)

(** [wp m Q s]: running [m] from [s] ends in an outcome and a state that
    satisfy [Q]. *)
Definition wp {A} (m : M A) (Q : outcome A -> Sys -> Prop) (s : Sys) : Prop :=
  Q (fst (m s)) (snd (m s)).

Arguments wp : simpl never.

(** No usable credential: nothing cached from an earlier probe, and the
    configured key is missing (absent, [null] or otherwise false), blank, or
    rejected by the probe. *)
Inductive no_valid_credential (w : World) (s : Sys) : Prop :=
| Missing :
    client (recorder s) = None ->
    truthy_opt (config s !! "api_key") = false ->
    no_valid_credential w s
| Blank k :
    client (recorder s) = None ->
    config s !! "api_key" = Some (VStr k) ->
    PyStr.strip k = "" ->
    no_valid_credential w s
| Rejected k e :
    client (recorder s) = None ->
    config s !! "api_key" = Some (VStr k) ->
    models_list w k = Some e ->
    no_valid_credential w s.

(** how [start_recording] reports that it has no client *)
Definition credential_failure : list event :=
  [StatusUpdate "Error: Failed to initialize OpenAI client. Please check your API key.";
   SingleShot 1000].

(** the events [_init_openai_client] can add *)
Definition probing (e : event) : Prop :=
  match e with
  | StatusUpdate _ | ModelsList _ => True
  | _ => False
  end.

(** The upload block of [stop_recording], as a function of the state it runs
    in: the remote calls it makes, and the transcript or the [str] of the
    exception that ends it. *)
Definition attempt (w : World) (s : Sys) (audio : list sample)
    : list event * (string + string) :=
  match client (recorder s) with
  | None => ([], inr "'NoneType' object has no attribute 'audio'")
  | Some key =>
      match config s !! "model" with
      | None => ([], inr "'model'")
      | Some model =>
          match config s !! "language" with
          | None => ([], inr "'language'")
          | Some language =>
              ([TranscriptionsCreate key model language audio],
               transcriptions_create w key model language audio)
          end
      end
  end.

(** what [stop_recording] returns after the upload block *)
Definition transcript (answer : string + string) : string :=
  match answer with
  | inl text => PyStr.strip text
  | inr _ => ""
  end.

(** the status message that follows the upload block *)
Definition verdict (answer : string + string) : list event :=
  match answer with
  | inl text =>
      if PyStr.nonempty (PyStr.strip text)
      then [StatusUpdate "Transcription complete"] else []
  | inr e => [StatusUpdate ("Error in transcription: " +:+ e)]
  end.

(** [if self.recording_thread: self.recording_thread.join()] *)
Definition joined (t : option nat) : list event :=
  match t with Some t => [ThreadJoin t] | None => [] end.

(** the temporary directory once [stop_recording] is done with [name] *)
Definition leftover (w : World) (name : string) (audio : list sample)
    (t : gmap string tmpfile) : gmap string tmpfile :=
  match os w with
  | Posix => t
  | Windows => <[name := mkTmp audio sample_rate 0]> t
  end.

(** a state that differs from [s] in the recorder fields and by more trace *)
Definition touched (s : Sys) (r : Recorder) (n : nat) (evs : list event) : Sys :=
  mkSys (config s) r (app_is_recording s) (hotkeys s) (main_file s)
        (sensitive_file s) (tmp s) n (trace s ++ evs).

(** neither a keystroke nor a remote transcription call *)
Definition quiet (e : event) : Prop :=
  match e with
  | KeyboardWrite _ | TranscriptionsCreate _ _ _ _ => False
  | _ => True
  end.

(** [if text and text.strip(): keyboard.write(text)] *)
Definition typed (text : string) : list event :=
  if PyStr.nonempty text && PyStr.nonempty (PyStr.strip text)
  then [KeyboardWrite text] else [].

(** the state in which [toggle_recording] calls [stop_recording] *)
Definition released (s : Sys) : Sys :=
  mkSys (config s) (recorder s) (Some false) (hotkeys s) (main_file s)
        (sensitive_file s) (tmp s) (threads s) (trace s).

(** [key in DEFAULT_SENSITIVE_CONFIG] *)
Definition secret (key : string) : Prop := is_Some (DEFAULT_SENSITIVE_CONFIG !! key).

Definition is_secret (kv : string * value) : Prop := secret kv.1.
Definition is_general (kv : string * value) : Prop := ¬ secret kv.1.

#[global] Instance is_secret_dec kv : Decision (is_secret kv).
Proof. unfold is_secret, secret. apply _. Defined.

#[global] Instance is_general_dec kv : Decision (is_general kv).
Proof. unfold is_general, secret. apply _. Defined.

(** what is hooked once [register_hotkey] has handed [combination] over *)
Definition bound (w : World) (combination : value) : list value :=
  match parse_hotkey w combination with
  | None => [combination]
  | Some _ => []
  end.

(** settings saved one after the other, each on its own day *)
Definition reconfigure (l : list (World * gmap string value)) (s : Sys) : Sys :=
  foldl (fun s '(w, c) => run (update_config w c) s) s l.

(** ** The recording indicator, the capture stream, and runs of several steps *)

(** [_update_recording_indicator], the slot connected to
    [recording_state_changed]: [show()] on [True], [hide()] on [False].  The
    result is whether the indicator is visible. *)
Definition _update_recording_indicator (is_recording : bool) : bool :=
  if is_recording then true else false.

(** whether the indicator is visible after the signals of [evs]; the widget
    is created hidden *)
Definition indicator_shown (evs : list event) : bool :=
  foldl (fun shown e =>
           match e with
           | RecordingStateChanged b => _update_recording_indicator b
           | _ => shown
           end) false evs.

(** the input stream delivering [blocks], one [audio_callback] each *)
Fixpoint capture (blocks : list chunk) : M unit :=
  match blocks with
  | [] => ret tt
  | indata :: rest => audio_callback indata;; capture rest
  end.

(** a history of the session: each step on its own day *)
Definition steps (l : list (World * action)) (s : Sys) : Sys :=
  foldl (fun s '(w, a) => run (step w a) s) s l.

(** ** More sample machines *)

Module Later.

(** [Sample.captured] after the hotkey was pressed again and the service
    answered "hello world" *)
Definition stopped : Sys :=
  run (toggle_recording (Sample.online Posix (inl "hello world"))) Sample.captured.

(** a machine whose sound devices cannot be queried *)
Definition no_device : World :=
  mkWorld Posix (fun _ => None) (Some "Error querying device -1") None
          (fun _ _ _ _ => inl "") (fun _ => None).

(** a machine that cannot start another thread *)
Definition no_thread : World :=
  mkWorld Posix (fun _ => None) None (Some "can't start new thread")
          (fun _ _ _ _ => inl "") (fun _ => None).

(** a service that rejects every key *)
Definition revoked : World :=
  mkWorld Posix (fun _ => Some "Error code: 401") None None
          (fun _ _ _ _ => inr "Error code: 401") (fun _ => None).

(** [Sample.overlapping] once its two documents are loaded *)
Definition loaded : Sys :=
  run (c ← _load_config; set_config c) Sample.overlapping.

End Later.

(** an event other than [recording_state_changed] *)
Definition no_state_signal (e : event) : Prop :=
  match e with
  | RecordingStateChanged _ => False
  | _ => True
  end.

(** the indicator shows what the recorder does *)
Definition indicator_in_step (s : Sys) : Prop :=
  indicator_shown (trace s) = is_recording (recorder s).

(** the test [_init_openai_client] makes on a string key:
    [not api_key or not api_key.strip() or 'your-api-key' in api_key] *)
Definition refused_locally (k : string) : bool :=
  negb (PyStr.nonempty k) || negb (PyStr.nonempty (PyStr.strip k))
  || PyStr.contains "your-api-key" k.




(** a state that differs from [s] in the client and by more trace *)
Definition with_client (s : Sys) (c : option string) (evs : list event) : Sys :=
  touched s (mkRecorder (is_recording (recorder s)) (audio_data (recorder s))
                        (recording_thread (recorder s)) c)
          (threads s) evs.

(** the last word of [AudioRecorder.update_config] *)
Definition update_verdict (success : bool) : event :=
  StatusUpdate (if success then "API key updated successfully"
                else "Error: Failed to initialize with new API key").

(** ** The hotkey, pressed *)

(** the hotkey pressed once on each of the days [ws] *)
Definition presses (ws : list World) (s : Sys) : Sys :=
  foldl (fun s w => run (toggle_recording w) s) s ws.

(** the application's flag says what the recorder does *)
Definition flags_agree (s : Sys) : Prop :=
  default false (app_is_recording s) = is_recording (recorder s).

(** the state [toggle_recording] leaves when [start()] returned [ok] in [s'] *)
Definition pressed (ok : bool) (s' : Sys) : Sys :=
  mkSys (config s') (recorder s') (if ok then Some true else app_is_recording s')
        (hotkeys s') (main_file s') (sensitive_file s') (tmp s') (threads s')
        (trace s').

(** ** The configuration, whole *)

(** every built-in default *)
Definition DEFAULTS : gmap string value :=
  DEFAULT_SENSITIVE_CONFIG ∪ DEFAULT_MAIN_CONFIG.

(** what [register_hotkey] leaves in [self.config] *)
Definition with_hotkey (c : gmap string value) : gmap string value :=
  if truthy_opt (c !! "hotkey") then c else <["hotkey" := VStr "ctrl+alt+d"]> c.

(** the test of [_check_required_config] *)
Definition needs_settings (c : gmap string value) : bool :=
  negb (truthy_opt (c !! "api_key")) || negb (truthy_opt (c !! "hotkey")).

(** the two entries the settings window displays are ones PyQt takes: the
    key a string or false in Python, the hotkey a string or [None] *)
Definition displayable (c : gmap string value) : bool :=
  match c !! "api_key" with
  | Some (VStr _) | None => true
  | Some v => negb (truthy v)
  end
  && match c !! "hotkey" with
     | Some (VStr _) | Some VNone => true
     | _ => false
     end.

(** what [_load_config] finds in the two files *)
Definition loaded_from (mf sf : option document) : gmap string value :=
  update_from sf DEFAULT_SENSITIVE_CONFIG ∪ update_from mf DEFAULT_MAIN_CONFIG.

(** ** SettingsWindow *)

(** [str.lower] for code points below 256: [A]..[Z] and the capital letters
    of Latin-1 move up by 32, everything else stays *)
Definition lower_char (c : ascii) : ascii :=
  let n := nat_of_ascii c in
  if ((65 <=? n)%nat && (n <=? 90)%nat)
     || ((192 <=? n)%nat && (n <=? 222)%nat && negb (n =? 215)%nat)
  then ascii_of_nat (n + 32) else c.

Fixpoint lower (s : string) : string :=
  match s with
  | EmptyString => EmptyString
  | String c t => String (lower_char c) (lower t)
  end.

(** the message boxes of the settings window, by title and text *)
Inductive dialog :=
| Warning (title text : string)
| Question (title text : string).

Definition newline : string := String (ascii_of_nat 10) EmptyString.

(** the dictionary [save_settings] builds from the two fields *)
Definition new_config (hotkey_text api_key_text : string) : gmap string value :=
  <["hotkey" := VStr hotkey_text]>
  (<["language" := VStr "en"]>
  (<["api_key" := VStr (PyStr.strip api_key_text)]> ∅)).

(** [not api_key or api_key.strip() == '' or
     api_key.lower() == 'your-api-key-here'] *)
Definition no_key_given (api_key : string) : bool :=
  negb (PyStr.nonempty api_key)
  || String.eqb (PyStr.strip api_key) ""
  || String.eqb (lower api_key) "your-api-key-here".

(** the warning shown when the probe of the window fails with [error_msg] *)
Definition probe_warning (error_msg : string) : dialog :=
  if PyStr.contains "invalid_api_key" error_msg || PyStr.contains "401" error_msg
  then Warning "Invalid API Key"
         ("The API key you entered appears to be invalid. OpenAI error:"
          +:+ newline +:+ error_msg)
  else Warning "API Error"
         ("Error validating API key with OpenAI:" +:+ newline +:+ error_msg).

Definition save_anyway_question : dialog :=
  Question "Save Anyway?"
           "Do you want to save this key anyway and close the settings?".

(** [SettingsWindow.save_settings] for a window opened on a copy
    [window_config] of the configuration, with the two fields as typed.
    [yes] is the answer the user gives if asked whether to save anyway.
    Returns the message boxes shown and whether the window was closed. *)
Definition save_settings (w : World) (yes : bool)
    (window_config : gmap string value) (hotkey_text api_key_text : string)
    : M (list dialog * bool) :=
  let new := new_config hotkey_text api_key_text in
  let api_key := PyStr.strip api_key_text in
  if no_key_given api_key then
    update_config w (new ∪ window_config);;
    ret ([Warning "Warning"
            "No API key provided. The application may not work correctly."],
         true)
  else
    try_except
      (emit (ModelsList api_key);;
       call (models_list w api_key);;
       update_config w (new ∪ window_config);;
       ret ([], true))
      (fun error_msg =>
         if yes then
           update_config w (new ∪ window_config);;
           ret ([probe_warning error_msg; save_anyway_question], true)
         else
           ret ([probe_warning error_msg; save_anyway_question], false)).

(** * Theorems *)

(** ** Weakest preconditions

    [wp m Q s]: running [m] from [s] ends in an outcome and a state that
    satisfy [Q].  One rule per construct of the monad; [wp_go] applies them
    in program order. *)

Section Rules.

Context {A B : Type}.

Lemma wp_ret (a : A) Q s : Q (Ret a) s -> wp (ret a) Q s.
Proof. exact id. Qed.

Lemma wp_raise (e : string) (Q : outcome A -> Sys -> Prop) s :
  Q (Raise e) s -> wp (raise e) Q s.
Proof. exact id. Qed.

Lemma wp_gets (f : Sys -> A) Q s : Q (Ret (f s)) s -> wp (gets f) Q s.
Proof. exact id. Qed.

Lemma wp_bind (m : M A) (k : A -> M B) Q s :
  wp m (fun o s1 => match o with
                    | Ret a => wp (k a) Q s1
                    | Raise e => Q (Raise e) s1
                    end) s ->
  wp (m ≫= k) Q s.
Proof.
  unfold wp, mbind, M_bind, bind. destruct (m s) as [[a|e] s1]; exact id.
Qed.

Lemma wp_try_except (m : M A) (h : string -> M A) Q s :
  wp m (fun o s1 => match o with
                    | Ret a => Q (Ret a) s1
                    | Raise e => wp (h e) Q s1
                    end) s ->
  wp (try_except m h) Q s.
Proof.
  unfold wp, try_except. destruct (m s) as [[a|e] s1]; exact id.
Qed.

Lemma wp_try_finally (m : M A) (f : M unit) Q s :
  wp m (fun o s1 =>
          wp f (fun o' s2 => match o' with
                             | Ret _ => Q o s2
                             | Raise e => Q (Raise e) s2
                             end) s1) s ->
  wp (try_finally m f) Q s.
Proof.
  unfold wp, try_finally. destruct (m s) as [o s1]. simpl.
  destruct (f s1) as [[u|e] s2]; exact id.
Qed.

(** from a postcondition to the equation, and back *)
Lemma wp_eq (m : M A) (v : outcome A * Sys) s :
  wp m (fun o s' => (o, s') = v) s -> m s = v.
Proof. unfold wp. destruct (m s). exact id. Qed.

Lemma wp_intro (m : M A) (P : outcome A * Sys -> Prop) s :
  wp m (fun o s' => P (o, s')) s -> P (m s).
Proof. unfold wp. destruct (m s). exact id. Qed.

Lemma wp_use (m : M A) (o : outcome A) (s s' : Sys) Q :
  m s = (o, s') -> Q o s' -> wp m Q s.
Proof. unfold wp. intros ->. exact id. Qed.

End Rules.

Lemma wp_modify (f : Sys -> Sys) Q s : Q (Ret tt) (f s) -> wp (modify f) Q s.
Proof. exact id. Qed.

Lemma wp_call (r : option string) Q s :
  match r with None => Q (Ret tt) s | Some e => Q (Raise e) s end ->
  wp (call r) Q s.
Proof. destruct r; exact id. Qed.

Lemma wp_new_thread Q s :
  Q (Ret (threads s))
    (mkSys (config s) (recorder s) (app_is_recording s) (hotkeys s)
           (main_file s) (sensitive_file s) (tmp s) (S (threads s)) (trace s)) ->
  wp new_thread Q s.
Proof. exact id. Qed.

Ltac wp_fields :=
  cbn beta iota zeta delta
    [config recorder app_is_recording hotkeys main_file sensitive_file tmp
     threads trace is_recording audio_data recording_thread client
     written rate handles with_recorder fst snd negb orb andb Nat.pred].

Ltac wp_rule :=
  lazymatch goal with
  | |- wp (mbind _ _) _ _ => apply wp_bind
  | |- wp (ret _) _ _ => apply wp_ret
  | |- wp (raise _) _ _ => apply wp_raise
  | |- wp (gets _) _ _ => apply wp_gets
  | |- wp (modify _) _ _ => apply wp_modify
  | |- wp (call _) _ _ => apply wp_call
  | |- wp (try_except _ _) _ _ => apply wp_try_except
  | |- wp (try_finally _ _) _ _ => apply wp_try_finally
  | |- wp (emit _) _ _ => unfold emit at 1
  | |- wp (set_is_recording _) _ _ => unfold set_is_recording at 1
  | |- wp (set_audio_data _) _ _ => unfold set_audio_data at 1
  | |- wp (set_recording_thread _) _ _ => unfold set_recording_thread at 1
  | |- wp (set_client _) _ _ => unfold set_client at 1
  | |- wp (set_config _) _ _ => unfold set_config at 1
  | |- wp (set_app_is_recording _) _ _ => unfold set_app_is_recording at 1
  | |- wp (set_hotkeys _) _ _ => unfold set_hotkeys at 1
  | |- wp (set_files _ _) _ _ => unfold set_files at 1
  | |- wp (set_tmp _) _ _ => unfold set_tmp at 1
  | |- wp new_thread _ _ => apply wp_new_thread
  | |- wp NamedTemporaryFile _ _ => unfold NamedTemporaryFile at 1
  | |- wp (sf_write _ _ _) _ _ => unfold sf_write at 1
  | |- wp (open_rb _) _ _ => unfold open_rb at 1
  | |- wp (close _) _ _ => unfold close at 1
  | |- wp (os_unlink _ _) _ _ => unfold os_unlink at 1
  | |- wp (subscript _) _ _ => unfold subscript at 1
  end.

(** Postconditions are kept under a name while a rule is applied, so that a
    [try] that mentions its continuation twice does not copy it. *)
Ltac wp_name :=
  lazymatch goal with
  | |- wp _ ?Q _ =>
      tryif is_var Q then idtac else (let q := fresh "Q" in set (q := Q))
  end.

Ltac wp_step :=
  lazymatch goal with
  | |- wp _ _ _ => wp_name; wp_rule; wp_fields
  | |- ?q _ _ => is_var q; subst q; wp_fields
  end.

Ltac wp_go := wp_fields; repeat wp_step.

Ltac flatten := rewrite <- ?app_assoc; simpl app.

Section Recorder.

Variable w : World.

Lemma start_recording_busy (s : Sys) :
  is_recording (recorder s) = true ->
  start_recording w s = (Ret false, s).
Proof.
  intros H. apply wp_eq. unfold start_recording.
  wp_go. rewrite H. wp_go. reflexivity.
Qed.

End Recorder.

(** C9. [start()] on a session that is already recording returns failure and
    leaves everything as it was: the active flag, the chunk buffer and the
    thread handle are unchanged and no event (in particular no status and no
    indicator signal) is appended to the trace. *)
Theorem start_while_recording_is_noop (w : World) (s : Sys) :
  is_recording (recorder s) = true ->
  result (start_recording w) s = Ret false /\
  run (start_recording w) s = s /\
  is_recording (recorder (run (start_recording w) s)) = is_recording (recorder s) /\
  audio_data (recorder (run (start_recording w) s)) = audio_data (recorder s) /\
  recording_thread (recorder (run (start_recording w) s)) = recording_thread (recorder s) /\
  events_since s (run (start_recording w) s) = [].
Proof.
  intros H. unfold run, result, events_since.
  rewrite (start_recording_busy w s H). simpl fst. simpl snd.
  repeat split; try reflexivity.
  apply drop_all.
Qed.

Lemma start_while_recording_is_noop_witness :
  is_recording (recorder Sample.captured) = true /\
  result (start_recording (Sample.online Posix (inl ""))) Sample.captured = Ret false /\
  run (start_recording (Sample.online Posix (inl ""))) Sample.captured = Sample.captured.
Proof.
  assert (H : is_recording (recorder Sample.captured) = true) by (vm_compute; reflexivity).
  split; [exact H |].
  destruct (start_while_recording_is_noop (Sample.online Posix (inl "")) Sample.captured H)
    as (Hr & Hs & _).
  split; [exact Hr | exact Hs].
Defined.

(** ** The credential check of [start()] *)

(** C3. [start()] without a valid credential (key missing, blank, or
    rejected by the probe, and no client kept from an earlier probe) fails:
    it returns failure, reports the credential failure on the status channel,
    schedules the settings prompt on a timer, and leaves the session exactly
    as it was, in Idle. *)
Theorem start_without_credential (w : World) (s : Sys) :
  is_recording (recorder s) = false ->
  no_valid_credential w s ->
  result (start_recording w) s = Ret false /\
  (exists probe : list event,
      trace (run (start_recording w) s) = trace s ++ probe ++ credential_failure /\
      Forall probing probe) /\
  recorder (run (start_recording w) s) = recorder s /\
  state_of (run (start_recording w) s) = Idle /\
  threads (run (start_recording w) s) = threads s.
Proof.
  intros Hidle Hcred.
  change (wp (start_recording w)
             (fun o s' =>
                o = Ret false /\
                (exists probe, trace s' = trace s ++ probe ++ credential_failure /\
                               Forall probing probe) /\
                recorder s' = recorder s /\ state_of s' = Idle /\
                threads s' = threads s) s).
  destruct s as [cfg [ir ad th cl] air hk mf sf tm n tr].
  simpl in Hidle. subst ir.
  unfold start_recording, state_of.
  destruct Hcred as [Hc Hk | k Hc Hk Hb | k e Hc Hk Hp]; simpl in Hc, Hk; subst cl;
    wp_go; unfold _init_openai_client; wp_go.
  - destruct (cfg !! "api_key") as [v|]; wp_go.
    + unfold truthy_opt in Hk.
      destruct v as [| b | z | m e | k]; wp_go; rewrite ?Hk; wp_go;
        try (repeat split; try reflexivity;
             eexists [_]; split; [flatten; reflexivity | repeat constructor]).
      cbn [truthy] in Hk. rewrite Hk. wp_go.
      repeat split; try reflexivity.
      eexists [_]. split; [flatten; reflexivity | repeat constructor].
    + repeat split; try reflexivity.
      eexists [_]. split; [flatten; reflexivity | repeat constructor].
  - rewrite Hk; wp_go.
    rewrite Hb. cbn [PyStr.nonempty negb]. rewrite orb_true_r. wp_go.
    repeat split; try reflexivity.
    eexists [_]. split; [flatten; reflexivity | repeat constructor].
  - rewrite Hk; wp_go.
    destruct (negb (PyStr.nonempty k) || negb (PyStr.nonempty (PyStr.strip k))
              || PyStr.contains "your-api-key" k); wp_go.
    + repeat split; try reflexivity.
      eexists [_]. split; [flatten; reflexivity | repeat constructor].
    + rewrite Hp. wp_go.
      repeat split; try reflexivity.
      eexists [_; _]. split; [flatten; reflexivity | repeat constructor].
Qed.

Lemma start_without_credential_witness :
  result (start_recording (Sample.online Posix (inl ""))) Sample.unconfigured = Ret false /\
  state_of (run (start_recording (Sample.online Posix (inl ""))) Sample.unconfigured) = Idle.
Proof.
  assert (Hidle : is_recording (recorder Sample.unconfigured) = false)
    by (vm_compute; reflexivity).
  assert (Hcred : no_valid_credential (Sample.online Posix (inl "")) Sample.unconfigured).
  { apply (Blank _ _ ""); vm_compute; reflexivity. }
  destruct (start_without_credential _ _ Hidle Hcred) as (Hr & _ & _ & Hs & _).
  split; [exact Hr | exact Hs].
Defined.

(** C3 as worded fails: [start()] looks at the credential only when the
    recorder holds no client.  Once a probe has succeeded the client is
    kept, so [start()] goes through and the session is Recording although
    the configured key has since been blanked in the settings, and likewise
    although the service would now reject the key. *)
Lemma start_with_kept_client_skips_the_check :
  config (run (update_config (Sample.online Posix (inl ""))
                             (<["api_key" := VStr ""]> (config Sample.idle)))
              Sample.idle) !! "api_key" = Some (VStr "") /\
  result (start_recording (Sample.online Posix (inl "")))
         (run (update_config (Sample.online Posix (inl ""))
                             (<["api_key" := VStr ""]> (config Sample.idle)))
              Sample.idle) = Ret true /\
  state_of (run (start_recording (Sample.online Posix (inl "")))
                (run (update_config (Sample.online Posix (inl ""))
                                    (<["api_key" := VStr ""]> (config Sample.idle)))
                     Sample.idle)) = Recording /\
  config Sample.idle !! "api_key" = Some (VStr "sk-test") /\
  models_list (mkWorld Posix (fun _ => Some "Error code: 401") None None
                       (fun _ _ _ _ => inl "") (fun _ => None)) "sk-test"
    = Some "Error code: 401" /\
  result (start_recording
            (mkWorld Posix (fun _ => Some "Error code: 401") None None
                     (fun _ _ _ _ => inl "") (fun _ => None)))
         Sample.idle = Ret true /\
  state_of (run (start_recording
                   (mkWorld Posix (fun _ => Some "Error code: 401") None None
                            (fun _ _ _ _ => inl "") (fun _ => None)))
                Sample.idle) = Recording.
Proof. repeat split; vm_compute; reflexivity. Qed.

(** ** What [stop()] does, case by case *)

Lemma fresh_tmp (t : gmap string tmpfile) : t !! fresh (dom t) = None.
Proof. apply not_elem_of_dom, is_fresh. Qed.

Lemma wp_joined (th : option nat) Q s :
  Q (Ret tt)
    (mkSys (config s) (recorder s) (app_is_recording s) (hotkeys s)
           (main_file s) (sensitive_file s) (tmp s) (threads s)
           (trace s ++ joined th)) ->
  wp (match th with Some t => emit (ThreadJoin t) | None => ret tt end) Q s.
Proof.
  destruct th; [exact id |]. unfold joined. rewrite app_nil_r.
  destruct s. exact id.
Qed.

Ltac wp_files :=
  repeat (wp_go; rewrite ?lookup_insert_eq, ?insert_insert_eq, ?lookup_delete_eq).

Section Stop.

Variable w : World.

Lemma stop_recording_idle (s : Sys) :
  is_recording (recorder s) = false ->
  stop_recording w s = (Ret "", s).
Proof.
  intros H. apply wp_eq. unfold stop_recording.
  wp_go. rewrite H. wp_go. reflexivity.
Qed.

Lemma stop_recording_silent (s : Sys) :
  is_recording (recorder s) = true ->
  audio_data (recorder s) = [] ->
  stop_recording w s =
    (Ret "",
     mkSys (config s)
           (mkRecorder false [] (recording_thread (recorder s)) (client (recorder s)))
           (app_is_recording s) (hotkeys s) (main_file s) (sensitive_file s)
           (tmp s) (threads s)
           (trace s ++ [RecordingStateChanged false]
              ++ joined (recording_thread (recorder s))
              ++ [StatusUpdate "No audio recorded"])).
Proof.
  intros Hr Ha.
  destruct s as [cfg [ir ad th cl] air hk mf sf tm n tr].
  simpl in Hr, Ha. subst.
  apply wp_eq. unfold stop_recording.
  wp_go. apply wp_joined. wp_go. flatten. reflexivity.
Qed.

Lemma stop_recording_upload (s : Sys) (c : chunk) (cs : list chunk) :
  is_recording (recorder s) = true ->
  audio_data (recorder s) = c :: cs ->
  stop_recording w s =
    (Ret (transcript (snd (attempt w s (concat (c :: cs))))),
     mkSys (config s)
           (mkRecorder false (c :: cs) (recording_thread (recorder s))
                       (client (recorder s)))
           (app_is_recording s) (hotkeys s) (main_file s) (sensitive_file s)
           (leftover w (fresh (dom (tmp s))) (concat (c :: cs)) (tmp s))
           (threads s)
           (trace s ++ [RecordingStateChanged false]
              ++ joined (recording_thread (recorder s))
              ++ [StatusUpdate "Transcribing..."]
              ++ fst (attempt w s (concat (c :: cs)))
              ++ verdict (snd (attempt w s (concat (c :: cs)))))).
Proof.
  intros Hr Ha.
  destruct s as [cfg [ir ad th cl] air hk mf sf tm n tr].
  simpl in Hr, Ha. subst.
  unfold attempt, leftover. wp_fields.
  pose proof (fresh_tmp tm) as Hfresh.
  set (audio := concat (c :: cs)).
  apply wp_eq. unfold stop_recording.
  wp_go. apply wp_joined. wp_files. fold audio.
  destruct cl as [key|]; wp_files;
    [destruct (cfg !! "model") as [model|] eqn:Hm; wp_files;
     [destruct (cfg !! "language") as [language|] eqn:Hl; wp_files;
      [destruct (transcriptions_create w key model language audio)
         as [text|e] eqn:Ht; wp_files;
       [destruct (PyStr.nonempty (PyStr.strip text)) eqn:Hn; wp_files |] |] |] |];
    destruct (os w); wp_files;
    unfold transcript, verdict;
    try match goal with H : PyStr.nonempty _ = _ |- _ => rewrite H end;
    rewrite ?(delete_insert_id tm) by exact Hfresh;
    flatten; reflexivity.
Qed.

End Stop.

(** ** What [start()] and the credential probe can change *)

Ltac wp_case :=
  lazymatch goal with
  | |- wp (match ?x with _ => _ end) _ _ => destruct x eqn:?
  | |- match ?x with _ => _ end => destruct x eqn:?
  end.

Ltac wp_auto := repeat (wp_go; try wp_case).

Lemma probing_quiet (evs : list event) : Forall probing evs -> Forall quiet evs.
Proof.
  intros H. eapply Forall_impl; [exact H |].
  intros [] He; simpl in *; tauto.
Qed.

Section Start.

Variable w : World.

(** The probe returns, touches only the client and the trace, and leaves a
    client behind exactly when it succeeds from a state without one. *)
Lemma init_openai_client_frame (s : Sys) :
  exists (b : bool) (c : option string) (evs : list event),
    _init_openai_client w s =
      (Ret b,
       touched s (mkRecorder (is_recording (recorder s)) (audio_data (recorder s))
                             (recording_thread (recorder s)) c)
               (threads s) evs) /\
    Forall probing evs /\
    (b = false -> client (recorder s) = None -> c = None).
Proof.
  destruct s as [cfg [ir ad th cl] air hk mf sf tm n tr].
  unfold touched. wp_fields.
  match goal with
  | |- context [_init_openai_client w ?s] => pattern (_init_openai_client w s)
  end.
  apply wp_intro.
  unfold _init_openai_client.
  wp_auto; (eexists _, _, _; split;
            [flatten; reflexivity | split; [repeat constructor | congruence]]).
Qed.

(** [start()] never raises; it touches the recorder, the thread counter and
    the trace only, makes no remote transcription call and types nothing;
    the session is recording afterwards exactly when it was before or the
    call succeeded. *)
Lemma start_recording_frame (s : Sys) :
  exists (b : bool) (r : Recorder) (n : nat) (evs : list event),
    start_recording w s = (Ret b, touched s r n evs) /\
    is_recording r = is_recording (recorder s) || b /\
    Forall quiet evs.
Proof.
  destruct (is_recording (recorder s)) eqn:Hr.
  { exists false, (recorder s), (threads s), [].
    rewrite (start_recording_busy w s Hr). unfold touched.
    rewrite app_nil_r. destruct s; simpl in *. rewrite Hr. auto. }
  destruct s as [cfg [ir ad th cl] air hk mf sf tm n tr].
  simpl in Hr. subst ir. unfold touched. wp_fields.
  match goal with
  | |- context [start_recording w ?s] => pattern (start_recording w s)
  end.
  apply wp_intro. unfold start_recording. wp_go.
  destruct cl as [key|].
  - wp_auto; (eexists _, _, _, _; split;
              [flatten; reflexivity | split; [reflexivity | repeat constructor]]).
  - wp_go.
    match goal with
    | |- wp (_init_openai_client w) _ ?s =>
        destruct (init_openai_client_frame s) as (b & c & evs & Heq & Hevs & _);
        eapply wp_use; [exact Heq |]
    end.
    unfold touched. apply probing_quiet in Hevs.
    destruct b; wp_auto;
      (eexists _, _, _, _; split;
       [flatten; reflexivity
       | split; [reflexivity
                | rewrite ?Forall_app; repeat split; try assumption;
                  repeat constructor]]).
Qed.

End Start.

(** ** The session state machine *)

Lemma bind_then_tt {A} (m : M A) (s : Sys) :
  (m ≫= fun _ => ret tt) s =
    match m s with
    | (Ret _, s') => (Ret tt, s')
    | (Raise e, s') => (Raise e, s')
    end.
Proof. reflexivity. Qed.

Lemma stop_recording_returns (w : World) (s : Sys) :
  exists (text : string) (s' : Sys),
    stop_recording w s = (Ret text, s') /\ is_recording (recorder s') = false.
Proof.
  destruct (is_recording (recorder s)) eqn:Hr.
  - destruct (audio_data (recorder s)) as [|c cs] eqn:Ha.
    + eexists _, _. split; [apply (stop_recording_silent w s Hr Ha) | reflexivity].
    + eexists _, _. split; [apply (stop_recording_upload w s c cs Hr Ha) | reflexivity].
  - eexists _, _. split; [apply (stop_recording_idle w s Hr) | exact Hr].
Qed.







(** ** Facts about strings *)

Lemma append_cons (a : ascii) (s t : string) :
  String a s +:+ t = String a (s +:+ t).
Proof. reflexivity. Qed.

Lemma append_nil (t : string) : "" +:+ t = t.
Proof. reflexivity. Qed.




Lemma lstrip_split (s : string) :
  exists l, s = l +:+ PyStr.lstrip s /\ PyStr.all_space l = true.
Proof.
  induction s as [|a s (l & Hs & Hl)]; simpl.
  - exists "". split; reflexivity.
  - destruct (PyStr.isspace a) eqn:Ha.
    + exists (String a l). split.
      * rewrite append_cons. f_equal. exact Hs.
      * simpl. rewrite Ha. exact Hl.
    + exists "". split; reflexivity.
Qed.

Lemma lstrip_first (s : string) (a : ascii) :
  PyStr.first (PyStr.lstrip s) = Some a -> PyStr.isspace a = false.
Proof.
  induction s as [|b s IH]; simpl; [discriminate |].
  destruct (PyStr.isspace b) eqn:Hb; [exact IH |].
  simpl. intros [= <-]. exact Hb.
Qed.

Lemma rstrip_split (s : string) :
  exists r, s = PyStr.rstrip s +:+ r /\ PyStr.all_space r = true.
Proof.
  induction s as [|a s (r & Hs & Hr)]; simpl.
  - exists "". split; reflexivity.
  - destruct (PyStr.rstrip s) as [|b t] eqn:Ht.
    + rewrite append_nil in Hs. subst r. destruct (PyStr.isspace a) eqn:Ha.
      * exists (String a s). split; [reflexivity |].
        simpl. rewrite Ha. exact Hr.
      * exists s. split; [reflexivity | exact Hr].
    + exists r. split; [| exact Hr].
      rewrite append_cons. f_equal. exact Hs.
Qed.

Lemma rstrip_last (s : string) (a : ascii) :
  PyStr.last (PyStr.rstrip s) = Some a -> PyStr.isspace a = false.
Proof.
  induction s as [|b s IH]; simpl; [discriminate |].
  destruct (PyStr.rstrip s) as [|c t] eqn:Ht.
  - destruct (PyStr.isspace b) eqn:Hb; simpl; [discriminate |].
    intros [= <-]. exact Hb.
  - exact IH.
Qed.

Lemma rstrip_first (s : string) (a : ascii) :
  PyStr.first (PyStr.rstrip s) = Some a -> PyStr.first s = Some a.
Proof.
  destruct s as [|b s]; simpl; [discriminate |].
  destruct (PyStr.rstrip s); [destruct (PyStr.isspace b) |]; simpl; congruence.
Qed.

(** [strip] removes a run of whitespace at each end and nothing else, and
    what is left neither starts nor ends with whitespace. *)
Lemma strip_spec (s : string) :
  (exists l r, s = l +:+ PyStr.strip s +:+ r /\
               PyStr.all_space l = true /\ PyStr.all_space r = true) /\
  (forall a, PyStr.first (PyStr.strip s) = Some a -> PyStr.isspace a = false) /\
  (forall a, PyStr.last (PyStr.strip s) = Some a -> PyStr.isspace a = false).
Proof.
  unfold PyStr.strip. split; [| split].
  - destruct (lstrip_split s) as (l & Hl & Hls).
    destruct (rstrip_split (PyStr.lstrip s)) as (r & Hr & Hrs).
    exists l, r. rewrite <- Hr. auto.
  - intros a Ha. apply (lstrip_first s), rstrip_first, Ha.
  - intros a. apply rstrip_last.
Qed.

(** ** Reading traces *)

Lemma events_since_app (s s' : Sys) (evs : list event) :
  trace s' = trace s ++ evs -> events_since s s' = evs.
Proof. unfold events_since. intros ->. apply drop_app_length. Qed.

Lemma status_messages_app (l1 l2 : list event) :
  status_messages (l1 ++ l2) = status_messages l1 ++ status_messages l2.
Proof. apply omap_app. Qed.

Lemma remote_calls_app (l1 l2 : list event) :
  remote_calls (l1 ++ l2) = remote_calls l1 ++ remote_calls l2.
Proof. apply List.filter_app. Qed.

Lemma keystrokes_app (l1 l2 : list event) :
  keystrokes (l1 ++ l2) = keystrokes l1 ++ keystrokes l2.
Proof. apply omap_app. Qed.

Lemma keystrokes_quiet (evs : list event) : Forall quiet evs -> keystrokes evs = [].
Proof.
  induction 1 as [|e evs He _ IH]; [reflexivity |].
  change (keystrokes (e :: evs)) with (keystrokes ([e] ++ evs)).
  rewrite keystrokes_app, IH. destruct e; simpl in *; tauto.
Qed.

Lemma status_messages_joined (t : option nat) : status_messages (joined t) = [].
Proof. destruct t; reflexivity. Qed.

Lemma remote_calls_joined (t : option nat) : remote_calls (joined t) = [].
Proof. destruct t; reflexivity. Qed.

Lemma keystrokes_joined (t : option nat) : keystrokes (joined t) = [].
Proof. destruct t; reflexivity. Qed.

Lemma keystrokes_attempt (w : World) (s : Sys) (audio : list sample) :
  keystrokes (fst (attempt w s audio)) = [] /\
  keystrokes (verdict (snd (attempt w s audio))) = [].
Proof.
  unfold attempt.
  destruct (client (recorder s)), (config s !! "model"), (config s !! "language");
    simpl; auto.
  destruct (transcriptions_create _ _ _ _ _); simpl; auto.
  destruct (PyStr.nonempty _); auto.
Qed.

(** [stop()] never raises, ends Idle, types nothing, and leaves the
    configuration, its files, the hooked hotkeys and the application flag
    alone. *)
Lemma stop_recording_frame (w : World) (s : Sys) :
  exists (text : string) (r : Recorder) (t : gmap string tmpfile) (evs : list event),
    stop_recording w s =
      (Ret text,
       mkSys (config s) r (app_is_recording s) (hotkeys s) (main_file s)
             (sensitive_file s) t (threads s) (trace s ++ evs)) /\
    is_recording r = false /\
    keystrokes evs = [].
Proof.
  destruct (is_recording (recorder s)) eqn:Hr.
  - destruct (audio_data (recorder s)) as [|c cs] eqn:Ha.
    + eexists _, _, _, _. split; [apply (stop_recording_silent w s Hr Ha) |].
      split; [reflexivity |].
      rewrite !keystrokes_app, keystrokes_joined. reflexivity.
    + eexists _, _, _, _. split; [apply (stop_recording_upload w s c cs Hr Ha) |].
      split; [reflexivity |].
      destruct (keystrokes_attempt w s (concat (c :: cs))) as [H1 H2].
      rewrite !keystrokes_app, keystrokes_joined, H1, H2. reflexivity.
  - exists "", (recorder s), (tmp s), [].
    rewrite (stop_recording_idle w s Hr), app_nil_r.
    destruct s; auto.
Qed.

(** The probe is only made when no client is cached: with a client kept
    from an earlier successful probe, [start()] goes ahead without looking at
    the configured key again. *)
Lemma start_with_cached_client (w : World) (s : Sys) (key : string) :
  is_recording (recorder s) = false ->
  client (recorder s) = Some key ->
  query_devices w = None ->
  thread_start w = None ->
  result (start_recording w) s = Ret true /\
  events_since s (run (start_recording w) s) =
    [StatusUpdate "Recording..."; RecordingStateChanged true; ThreadStart (threads s)] /\
  recorder (run (start_recording w) s) =
    mkRecorder true [] (Some (threads s)) (Some key).
Proof.
  intros Hidle Hclient Hdev Hthread.
  destruct s as [cfg [ir ad th cl] air hk mf sf tm n tr].
  simpl in Hidle, Hclient. subst ir cl.
  unfold result, run.
  match goal with
  | |- context [start_recording w ?s] => pattern (start_recording w s)
  end.
  apply wp_intro. unfold start_recording. wp_go.
  rewrite Hdev. wp_go. rewrite Hthread. wp_go.
  split; [reflexivity |]. split; [| reflexivity].
  apply events_since_app. cbn [trace]. rewrite <- !app_assoc. reflexivity.
Qed.

(** ** Stopping a session *)

Section StopClaims.

Variables (w : World) (s : Sys).
Variables (c : chunk) (cs : list chunk) (key : string) (model language : value).

Hypothesis Hactive : is_recording (recorder s) = true.
Hypothesis Hdata : audio_data (recorder s) = c :: cs.
Hypothesis Hclient : client (recorder s) = Some key.
Hypothesis Hmodel : config s !! "model" = Some model.
Hypothesis Hlanguage : config s !! "language" = Some language.

Lemma attempt_reaches_service :
  attempt w s (concat (c :: cs)) =
    ([TranscriptionsCreate key model language (concat (c :: cs))],
     transcriptions_create w key model language (concat (c :: cs))).
Proof. unfold attempt. rewrite Hclient, Hmodel, Hlanguage. reflexivity. Qed.

Lemma stop_recording_answer (answer : string + string) :
  transcriptions_create w key model language (concat (c :: cs)) = answer ->
  result (stop_recording w) s = Ret (transcript answer) /\
  events_since s (run (stop_recording w) s) =
    [RecordingStateChanged false] ++ joined (recording_thread (recorder s))
      ++ [StatusUpdate "Transcribing...";
          TranscriptionsCreate key model language (concat (c :: cs))]
      ++ verdict answer /\
  tmp (run (stop_recording w) s) =
    leftover w (fresh (dom (tmp s))) (concat (c :: cs)) (tmp s) /\
  state_of (run (stop_recording w) s) = Idle.
Proof.
  intros Hanswer. unfold result, run, state_of.
  rewrite (stop_recording_upload w s c cs Hactive Hdata).
  rewrite attempt_reaches_service, Hanswer. cbn [fst snd].
  split; [reflexivity |]. split; [| split; reflexivity].
  apply events_since_app. reflexivity.
Qed.

End StopClaims.




(** C6. When the remote call succeeds with [text], [stop()] returns
    [text.strip()]: [text] without a leading and a trailing run of
    whitespace, which neither begins nor ends with whitespace. *)
Theorem stop_returns_trimmed_text (w : World) (s : Sys)
    (c : chunk) (cs : list chunk) (key : string) (model language : value)
    (text : string) :
  is_recording (recorder s) = true ->
  audio_data (recorder s) = c :: cs ->
  client (recorder s) = Some key ->
  config s !! "model" = Some model ->
  config s !! "language" = Some language ->
  transcriptions_create w key model language (concat (c :: cs)) = inl text ->
  result (stop_recording w) s = Ret (PyStr.strip text) /\
  (exists l r, text = l +:+ PyStr.strip text +:+ r /\
               PyStr.all_space l = true /\ PyStr.all_space r = true) /\
  (forall a, PyStr.first (PyStr.strip text) = Some a -> PyStr.isspace a = false) /\
  (forall a, PyStr.last (PyStr.strip text) = Some a -> PyStr.isspace a = false).
Proof.
  intros Hactive Hdata Hclient Hmodel Hlanguage Hok.
  split; [| apply strip_spec].
  apply (stop_recording_answer w s c cs key model language
           Hactive Hdata Hclient Hmodel Hlanguage (inl text) Hok).
Qed.

Lemma stop_returns_trimmed_text_witness :
  result (stop_recording (Sample.online Posix (inl "  hello world  "))) Sample.captured
  = Ret "hello world".
Proof.
  refine (proj1 (stop_returns_trimmed_text
                   (Sample.online Posix (inl "  hello world  ")) Sample.captured
                   [1; 2]%Z [[3]%Z; [4; 5]%Z] "sk-test" (VStr "whisper-1") (VStr "en")
                   "  hello world  " _ _ _ _ _ _));
    vm_compute; reflexivity.
Defined.

(** ** The temporary waveform file *)

(** Where removing an open file is allowed, [stop()] leaves the temporary
    directory as it found it; on Windows the file it wrote stays behind,
    closed. *)
Lemma temp_file_after_stop (w : World) (s : Sys) (c : chunk) (cs : list chunk) :
  is_recording (recorder s) = true ->
  audio_data (recorder s) = c :: cs ->
  tmp s !! fresh (dom (tmp s)) = None /\
  tmp (run (stop_recording w) s) !! fresh (dom (tmp s)) =
    match os w with
    | Posix => None
    | Windows => Some (mkTmp (concat (c :: cs)) sample_rate 0)
    end.
Proof.
  intros Hactive Hdata. split; [apply fresh_tmp |].
  unfold run. rewrite (stop_recording_upload w s c cs Hactive Hdata).
  cbn [snd tmp]. unfold leftover.
  destruct (os w); [apply fresh_tmp | apply lookup_insert_eq].
Qed.

(** On POSIX the claim of C7 holds: [stop()] gives the temporary directory
    back exactly as it found it, on the success and on the failure path. *)
Lemma temp_file_removed_on_posix (w : World) (s : Sys) (c : chunk) (cs : list chunk) :
  os w = Posix ->
  is_recording (recorder s) = true ->
  audio_data (recorder s) = c :: cs ->
  tmp (run (stop_recording w) s) = tmp s.
Proof.
  intros Hos Hactive Hdata. unfold run.
  rewrite (stop_recording_upload w s c cs Hactive Hdata).
  cbn [snd tmp]. unfold leftover. rewrite Hos. reflexivity.
Qed.

(** C7 (what the code does instead).  On Windows, after [stop()] on a
    session that captured at least one block, the temporary waveform file
    that [stop()] created is still in the temporary directory, closed and
    holding the waveform, whether the remote call succeeded or failed:
    [os.unlink] runs inside the [with] block that holds the file open, it
    raises, and the bare [except] discards the error.  [stop()] itself
    returns normally. *)
Theorem temp_file_survives_stop_on_windows
    (w : World) (s : Sys) (c : chunk) (cs : list chunk) :
  os w = Windows ->
  is_recording (recorder s) = true ->
  audio_data (recorder s) = c :: cs ->
  (exists text, result (stop_recording w) s = Ret text) /\
  tmp s !! fresh (dom (tmp s)) = None /\
  tmp (run (stop_recording w) s) !! fresh (dom (tmp s))
    = Some (mkTmp (concat (c :: cs)) sample_rate 0) /\
  (forall name, name <> fresh (dom (tmp s)) ->
                tmp (run (stop_recording w) s) !! name = tmp s !! name).
Proof.
  intros Hos Hactive Hdata.
  destruct (temp_file_after_stop w s c cs Hactive Hdata) as [Hnew Hleft].
  rewrite Hos in Hleft.
  split; [| split; [exact Hnew | split; [exact Hleft |]]].
  - destruct (stop_recording_returns w s) as (text & s' & Heq & _).
    exists text. unfold result. rewrite Heq. reflexivity.
  - intros name Hname. unfold run.
    rewrite (stop_recording_upload w s c cs Hactive Hdata).
    cbn [snd tmp]. unfold leftover. rewrite Hos.
    apply lookup_insert_ne. congruence.
Qed.

(** Valid credential, three captured blocks, a remote call that returns
    "hello world", on Windows: [stop()] returns "hello world" and the
    temporary file is still there. *)
Lemma temp_file_survives_stop_on_windows_witness :
  result (stop_recording (Sample.online Windows (inl "hello world"))) Sample.captured
    = Ret "hello world" /\
  tmp Sample.captured !! fresh (dom (tmp Sample.captured)) = None /\
  tmp (run (stop_recording (Sample.online Windows (inl "hello world"))) Sample.captured)
    !! fresh (dom (tmp Sample.captured))
    = Some (mkTmp [1; 2; 3; 4; 5]%Z 16000 0).
Proof.
  destruct (temp_file_survives_stop_on_windows
              (Sample.online Windows (inl "hello world")) Sample.captured
              [1; 2]%Z [[3]%Z; [4; 5]%Z])
    as (_ & Hnew & Hleft & _); try (vm_compute; reflexivity).
  split; [vm_compute; reflexivity |].
  split; [exact Hnew | exact Hleft].
Defined.

(** ** Typing the transcript *)

Lemma nonempty_and_strip (text : string) :
  PyStr.nonempty text && PyStr.nonempty (PyStr.strip text)
  = PyStr.nonempty (PyStr.strip text).
Proof. destruct text; reflexivity. Qed.

Lemma toggle_recording_stops (w : World) (s s' : Sys) (text : string) :
  app_is_recording s = Some true ->
  stop_recording w (released s) = (Ret text, s') ->
  toggle_recording w s =
    (Ret tt,
     mkSys (config s') (recorder s') (app_is_recording s') (hotkeys s')
           (main_file s') (sensitive_file s') (tmp s') (threads s')
           (trace s' ++ typed text)).
Proof.
  intros Happ Hstop.
  destruct s as [cfg r air hk mf sf tm n tr]. simpl in Happ. subst air.
  unfold released in Hstop.
  cbn [config recorder app_is_recording hotkeys main_file sensitive_file tmp
       threads trace] in Hstop.
  apply wp_eq. unfold toggle_recording. wp_go.
  cbn [default from_option id]. wp_go.
  eapply wp_use; [exact Hstop |]. wp_go.
  destruct (PyStr.nonempty text && PyStr.nonempty (PyStr.strip text)) eqn:Ht;
    wp_go; unfold typed; rewrite Ht.
  - reflexivity.
  - rewrite app_nil_r. destruct s'; reflexivity.
Qed.

(** C10. When a toggle stops a session, the text that [stop()] returned is
    typed into the focused application exactly when it is non-empty after
    stripping whitespace; nothing is typed otherwise, in particular on every
    path on which [stop()] fails: the recorder was not recording, no audio
    was captured, or the upload ended in an exception. *)
Theorem toggle_types_only_nonblank_text (w : World) (s : Sys) :
  app_is_recording s = Some true ->
  exists text,
    result (stop_recording w) (released s) = Ret text /\
    result (toggle_recording w) s = Ret tt /\
    keystrokes (events_since s (run (toggle_recording w) s)) =
      (if PyStr.nonempty (PyStr.strip text) then [text] else []) /\
    (is_recording (recorder s) = false \/
     audio_data (recorder s) = [] \/
     (exists e, snd (attempt w s (concat (audio_data (recorder s)))) = inr e) ->
     keystrokes (events_since s (run (toggle_recording w) s)) = []).
Proof.
  intros Happ.
  destruct (stop_recording_frame w (released s)) as (text & r & t & evs & Hstop & _ & Hks).
  pose proof (toggle_recording_stops w s _ text Happ Hstop) as Htoggle.
  cbn [config recorder app_is_recording hotkeys main_file sensitive_file tmp
       threads trace released] in Htoggle.
  assert (Hkeys : keystrokes (events_since s (run (toggle_recording w) s)) =
                  (if PyStr.nonempty (PyStr.strip text) then [text] else [])).
  { unfold run. rewrite Htoggle. cbn [snd].
    erewrite events_since_app by (cbn [trace]; rewrite <- app_assoc; reflexivity).
    rewrite keystrokes_app, Hks. unfold typed. rewrite nonempty_and_strip.
    destruct (PyStr.nonempty (PyStr.strip text)); reflexivity. }
  exists text. unfold result at 1 2. rewrite Hstop, Htoggle. cbn [fst].
  split; [reflexivity |]. split; [reflexivity |]. split; [exact Hkeys |].
  intros Hfail. rewrite Hkeys.
  assert (Hempty : text = ""); [| rewrite Hempty; reflexivity].
  destruct (is_recording (recorder s)) eqn:Hr.
  - destruct (audio_data (recorder s)) as [|c cs] eqn:Ha.
    + rewrite (stop_recording_silent w (released s) Hr Ha) in Hstop. congruence.
    + destruct Hfail as [Hfail | [Hfail | [e He]]]; try discriminate.
      rewrite (stop_recording_upload w (released s) c cs Hr Ha) in Hstop.
      change (attempt w (released s)) with (attempt w s) in Hstop.
      rewrite He in Hstop. simpl in Hstop. congruence.
  - rewrite (stop_recording_idle w (released s) Hr) in Hstop. congruence.
Qed.

Lemma toggle_types_only_nonblank_text_witness :
  exists text,
    result (stop_recording (Sample.online Posix (inl " "))) (released Sample.captured)
      = Ret text /\
    keystrokes (events_since Sample.captured
                  (run (toggle_recording (Sample.online Posix (inl " ")))
                       Sample.captured)) =
      (if PyStr.nonempty (PyStr.strip text) then [text] else []).
Proof.
  assert (Happ : app_is_recording Sample.captured = Some true)
    by (vm_compute; reflexivity).
  destruct (toggle_types_only_nonblank_text (Sample.online Posix (inl " "))
              Sample.captured Happ) as (text & Hstop & _ & Hkeys & _).
  exists text. exact (conj Hstop Hkeys).
Defined.

(** ** The configuration store *)

Lemma secret_keys (k : string) : secret k <-> k = "hotkey" \/ k = "api_key".
Proof.
  unfold secret, DEFAULT_SENSITIVE_CONFIG.
  destruct (decide (k = "hotkey")) as [-> | Hh].
  { rewrite lookup_insert_eq. split; eauto. }
  rewrite lookup_insert_ne by congruence.
  destruct (decide (k = "api_key")) as [-> | Ha].
  { rewrite lookup_insert_eq. split; eauto. }
  rewrite lookup_insert_ne by congruence. rewrite lookup_empty.
  split; [intros [v Hv]; discriminate | intros [Hk | Hk]; contradiction].
Qed.

(** the loop of [_save_config] sorts every item into one of two dictionaries *)
Lemma split_items (c : gmap string value) :
  map_fold split_item (∅, ∅) c = (filter is_general c, filter is_secret c).
Proof.
  apply (map_fold_weak_ind
           (fun r m => r = (filter is_general m, filter is_secret m))).
  - rewrite !map_filter_empty. reflexivity.
  - intros i x m r Hi ->. unfold split_item.
    case_decide as Hs.
    + rewrite (map_filter_insert_True is_secret) by exact Hs.
      rewrite (map_filter_insert_not is_general); [reflexivity |].
      intros y Hy. apply Hy. exact Hs.
    + rewrite (map_filter_insert_True is_general) by exact Hs.
      rewrite (map_filter_insert_not is_secret); [reflexivity |].
      intros y. exact Hs.
Qed.

Lemma save_config_exec (s : Sys) :
  _save_config s =
    (Ret tt,
     mkSys (config s) (recorder s) (app_is_recording s) (hotkeys s)
           (Some (Object (filter is_general (config s))))
           (Some (Object (filter is_secret (config s))))
           (tmp s) (threads s) (trace s)).
Proof.
  apply wp_eq. unfold _save_config. wp_go.
  rewrite split_items. wp_go. reflexivity.
Qed.

Lemma load_config_exec (s : Sys) :
  _load_config s =
    (Ret (update_from (sensitive_file s) DEFAULT_SENSITIVE_CONFIG
            ∪ update_from (main_file s) DEFAULT_MAIN_CONFIG), s).
Proof. reflexivity. Qed.

Lemma update_from_lookup (f : option document) (d : gmap string value) (k : string) :
  update_from f d !! k =
    match doc_lookup f k with
    | Some v => Some v
    | None => d !! k
    end.
Proof.
  destruct f as [[|m]|]; simpl; try reflexivity.
  rewrite lookup_union. destruct (m !! k), (d !! k); reflexivity.
Qed.

(** what [_load_config] returns, key by key *)
Lemma load_config_lookup (s : Sys) (k : string) :
  (update_from (sensitive_file s) DEFAULT_SENSITIVE_CONFIG
     ∪ update_from (main_file s) DEFAULT_MAIN_CONFIG) !! k =
    match doc_lookup (sensitive_file s) k with
    | Some v => Some v
    | None =>
        match DEFAULT_SENSITIVE_CONFIG !! k with
        | Some v => Some v
        | None =>
            match doc_lookup (main_file s) k with
            | Some v => Some v
            | None => DEFAULT_MAIN_CONFIG !! k
            end
        end
    end.
Proof.
  rewrite lookup_union, !update_from_lookup.
  destruct (doc_lookup (sensitive_file s) k), (DEFAULT_SENSITIVE_CONFIG !! k),
           (doc_lookup (main_file s) k), (DEFAULT_MAIN_CONFIG !! k);
    reflexivity.
Qed.

(** C5. [load()] returns one mapping in which a key found in neither
    document has its built-in default, and a key found in both has the value
    of the secret document; [save()] writes to the secret document exactly
    the items whose key is [hotkey] or [api_key], and all others to the
    general document. *)
Theorem load_merges_and_save_partitions (s : Sys) :
  exists c : gmap string value,
    _load_config s = (Ret c, s) /\
    (forall k,
        doc_lookup (main_file s) k = None ->
        doc_lookup (sensitive_file s) k = None ->
        c !! k = (DEFAULT_SENSITIVE_CONFIG ∪ DEFAULT_MAIN_CONFIG) !! k) /\
    (forall k v1 v2,
        doc_lookup (main_file s) k = Some v1 ->
        doc_lookup (sensitive_file s) k = Some v2 ->
        c !! k = Some v2) /\
    main_file (run _save_config s) = Some (Object (filter is_general (config s))) /\
    sensitive_file (run _save_config s) = Some (Object (filter is_secret (config s))) /\
    (forall k v, is_secret (k, v) <-> k = "hotkey" \/ k = "api_key") /\
    (forall k v, is_general (k, v) <-> ¬ (k = "hotkey" \/ k = "api_key")).
Proof.
  eexists. split; [apply load_config_exec |].
  split; [| split; [| split; [| split; [| split]]]].
  - intros k Hm Hs. rewrite load_config_lookup, Hm, Hs, lookup_union.
    destruct (DEFAULT_SENSITIVE_CONFIG !! k), (DEFAULT_MAIN_CONFIG !! k); reflexivity.
  - intros k v1 v2 Hm Hs. rewrite load_config_lookup, Hs. reflexivity.
  - unfold run. rewrite save_config_exec. reflexivity.
  - unfold run. rewrite save_config_exec. reflexivity.
  - intros k v. apply secret_keys.
  - intros k v. unfold is_general. simpl. rewrite secret_keys. reflexivity.
Qed.

Lemma load_merges_and_save_partitions_witness :
  exists c : gmap string value,
    _load_config Sample.overlapping = (Ret c, Sample.overlapping) /\
    c !! "language" = Some (VStr "fr") /\
    c !! "energy_threshold" = Some (VInt 500).
Proof.
  destruct (load_merges_and_save_partitions Sample.overlapping)
    as (c & Hload & Hdefault & Hboth & _).
  exists c. split; [exact Hload |].
  split.
  - apply (Hboth "language" (VStr "de")); vm_compute; reflexivity.
  - rewrite (Hdefault "energy_threshold"); vm_compute; reflexivity.
Defined.

(** C4. Loading, saving what was loaded, and loading again gives the mapping
    of the first load, whatever the two documents held (well-formed objects,
    unreadable files, or no file at all). *)
Theorem config_round_trip (s : Sys) :
  exists c : gmap string value,
    result _load_config s = Ret c /\
    result _load_config (run (set_config c ;; _save_config) s) = Ret c.
Proof.
  eexists. split; [unfold result; rewrite load_config_exec; reflexivity |].
  set (c := update_from (sensitive_file s) DEFAULT_SENSITIVE_CONFIG
              ∪ update_from (main_file s) DEFAULT_MAIN_CONFIG).
  assert (Hsaved : run (set_config c ;; _save_config) s =
                   mkSys c (recorder s) (app_is_recording s) (hotkeys s)
                         (Some (Object (filter is_general c)))
                         (Some (Object (filter is_secret c)))
                         (tmp s) (threads s) (trace s)).
  { unfold run.
    change ((set_config c ;; _save_config) s)
      with (_save_config (mkSys c (recorder s) (app_is_recording s) (hotkeys s)
                                (main_file s) (sensitive_file s) (tmp s)
                                (threads s) (trace s))).
    rewrite save_config_exec. reflexivity. }
  rewrite Hsaved. unfold result. rewrite load_config_exec. cbn [fst].
  f_equal. apply map_eq. intros k.
  rewrite load_config_lookup.
  cbn [main_file sensitive_file doc_lookup].
  rewrite !map_lookup_filter.
  assert (Hhas : forall v, DEFAULT_SENSITIVE_CONFIG !! k = Some v \/
                           DEFAULT_MAIN_CONFIG !! k = Some v ->
                           is_Some (c !! k)).
  { intros v Hv. unfold c. rewrite load_config_lookup.
    destruct (doc_lookup (sensitive_file s) k); [eauto |].
    destruct (DEFAULT_SENSITIVE_CONFIG !! k); [eauto |].
    destruct (doc_lookup (main_file s) k); [eauto |].
    destruct Hv as [Hv | Hv]; [discriminate | eauto]. }
  destruct (decide (secret k)) as [Hk | Hk].
  - destruct Hk as [d Hd]. destruct (Hhas d (or_introl Hd)) as [v Hv].
    rewrite Hv. simpl. rewrite option_guard_True by (exists d; exact Hd).
    reflexivity.
  - destruct (c !! k) as [v|] eqn:Hv; simpl.
    + rewrite option_guard_False by exact Hk.
      assert (Hd : DEFAULT_SENSITIVE_CONFIG !! k = None).
      { destruct (DEFAULT_SENSITIVE_CONFIG !! k) eqn:E; [| reflexivity].
        exfalso. apply Hk. eexists. exact E. }
      rewrite Hd. rewrite option_guard_True by exact Hk. reflexivity.
    + destruct (DEFAULT_SENSITIVE_CONFIG !! k) as [d|] eqn:Hd.
      { destruct (Hhas d (or_introl eq_refl)) as [? ?]. discriminate. }
      destruct (DEFAULT_MAIN_CONFIG !! k) as [d|] eqn:Hd'; [| reflexivity].
      destruct (Hhas d (or_intror eq_refl)) as [? ?]. discriminate.
Qed.

(** ** The hotkey bridge *)

Lemma register_hotkey_hooks (w : World) (s : Sys) :
  exists s', register_hotkey w s = (Ret tt, s') /\
             hotkeys s' = bound w (effective_hotkey (config s)).
Proof.
  destruct s as [cfg r air hk mf sf tm n tr].
  match goal with
  | |- context [register_hotkey w ?s] => pattern (register_hotkey w s)
  end.
  apply wp_intro. unfold register_hotkey, keyboard_unhook_all, keyboard_add_hotkey.
  unfold effective_hotkey, bound. wp_go.
  destruct (truthy_opt (cfg !! "hotkey")); wp_go.
  - destruct (parse_hotkey w (default VNone (cfg !! "hotkey"))); wp_go;
      eexists; split; reflexivity.
  - eapply wp_use; [apply save_config_exec |]. wp_go.
    destruct (parse_hotkey w (VStr "ctrl+alt+d")); wp_go;
      eexists; split; reflexivity.
Qed.

Lemma recorder_update_config_hooks (w : World) (c : gmap string value) (s : Sys) :
  exists (b : bool) (s' : Sys),
    recorder_update_config w c s = (Ret b, s') /\ hotkeys s' = hotkeys s.
Proof.
  destruct s as [cfg r air hk mf sf tm n tr].
  match goal with
  | |- context [recorder_update_config w c ?s] =>
      pattern (recorder_update_config w c s)
  end.
  apply wp_intro. unfold recorder_update_config. wp_go.
  destruct (is_recording r); wp_go.
  - match goal with
    | |- wp (stop_recording w) _ ?s =>
        destruct (stop_recording_frame w s) as (text & r' & t & evs & Heq & _);
        eapply wp_use; [exact Heq |]
    end.
    wp_go.
    match goal with
    | |- wp (_init_openai_client w) _ ?s =>
        destruct (init_openai_client_frame w s) as (b & cl & evs' & Heq' & _);
        eapply wp_use; [exact Heq' |]
    end.
    unfold touched. destruct b; wp_go; eexists _, _; split; reflexivity.
  - match goal with
    | |- wp (_init_openai_client w) _ ?s =>
        destruct (init_openai_client_frame w s) as (b & cl & evs' & Heq' & _);
        eapply wp_use; [exact Heq' |]
    end.
    unfold touched. destruct b; wp_go; eexists _, _; split; reflexivity.
Qed.

Lemma update_config_hooks (w : World) (c : gmap string value) (s : Sys) :
  result (update_config w c) s = Ret tt /\
  hotkeys (run (update_config w c) s) = bound w (effective_hotkey c).
Proof.
  destruct s as [cfg r air hk mf sf tm n tr].
  unfold result, run.
  match goal with
  | |- context [update_config w c ?s] => pattern (update_config w c s)
  end.
  apply wp_intro. unfold update_config. wp_go.
  eapply wp_use; [apply save_config_exec |]. wp_go.
  match goal with
  | |- wp (register_hotkey w) _ ?s =>
      destruct (register_hotkey_hooks w s) as (s1 & Heq & Hhooks);
      eapply wp_use; [exact Heq |]
  end.
  wp_go.
  destruct (recorder_update_config_hooks w (config s1) s1) as (b & s2 & Heq2 & Hsame).
  eapply wp_use; [exact Heq2 |]. wp_go.
  split; [reflexivity |]. rewrite Hsame. exact Hhooks.
Qed.

(** C8 (as the code has it).  Registration first unhooks everything and then
    hands the configured combination (or [ctrl+alt+d] when none is set) to
    the keyboard library.  So after any number of re-registrations followed
    by one more, at most one hotkey is hooked: exactly one, the last
    combination, when the library accepts it, and none when the library
    rejects it. *)
Theorem one_hotkey_after_reregistration
    (l : list (World * gmap string value)) (w : World) (c : gmap string value)
    (s : Sys) :
  let s' := run (update_config w c) (reconfigure l s) in
  (length (hotkeys s') <= 1)%nat /\
  (parse_hotkey w (effective_hotkey c) = None ->
   hotkeys s' = [effective_hotkey c]) /\
  (forall e, parse_hotkey w (effective_hotkey c) = Some e -> hotkeys s' = []) /\
  (forall s0, hotkeys (run (register_hotkey w) s0)
              = bound w (effective_hotkey (config s0))).
Proof.
  intros s'. subst s'.
  destruct (update_config_hooks w c (reconfigure l s)) as [_ Hhooks].
  rewrite Hhooks. unfold bound.
  split; [destruct (parse_hotkey w (effective_hotkey c)); simpl; lia |].
  split; [intros ->; reflexivity |].
  split; [intros e ->; reflexivity |].
  intros s0. destruct (register_hotkey_hooks w s0) as (s1 & Heq & Hs1).
  unfold run. rewrite Heq. exact Hs1.
Qed.

Lemma one_hotkey_after_reregistration_witness :
  hotkeys (run (update_config (Sample.online Posix (inl ""))
                              (<["hotkey" := VStr "ctrl+shift+x"]> (config Sample.idle)))
               (reconfigure
                  [(Sample.online Posix (inl ""),
                    <["hotkey" := VStr "alt+f"]> (config Sample.idle));
                   (Sample.online Posix (inl ""),
                    <["hotkey" := VStr "f10"]> (config Sample.idle))]
                  Sample.idle))
  = [VStr "ctrl+shift+x"].
Proof.
  destruct (one_hotkey_after_reregistration
              [(Sample.online Posix (inl ""),
                <["hotkey" := VStr "alt+f"]> (config Sample.idle));
               (Sample.online Posix (inl ""),
                <["hotkey" := VStr "f10"]> (config Sample.idle))]
              (Sample.online Posix (inl ""))
              (<["hotkey" := VStr "ctrl+shift+x"]> (config Sample.idle))
              Sample.idle) as (_ & Hone & _).
  rewrite Hone; [vm_compute; reflexivity | reflexivity].
Defined.

(** C8 as worded fails: the settings form takes any text as the hotkey, and
    a combination the keyboard library cannot parse leaves no hotkey hooked,
    because the earlier one was unhooked first. *)
Lemma no_hotkey_after_rejected_combination :
  hotkeys Sample.idle = [VStr "f9"] /\
  hotkeys (run (update_config Sample.strict
                              (<["hotkey" := VStr "ctrl+alt+nosuchkey"]>
                                 (config Sample.idle)))
               Sample.idle) = [].
Proof. split; vm_compute; reflexivity. Qed.

(** * Further properties of the code *)

(** ** The recorder outside the claims *)

(** X1. [stop()] called while Idle returns the empty string and changes
    nothing: no field, no file, no signal. *)
Theorem stop_while_idle_is_noop (w : World) (s : Sys) :
  is_recording (recorder s) = false ->
  result (stop_recording w) s = Ret "" /\
  run (stop_recording w) s = s /\
  events_since s (run (stop_recording w) s) = [].
Proof.
  intros Hidle. unfold result, run, events_since.
  rewrite (stop_recording_idle w s Hidle). cbn [fst snd].
  repeat split. apply drop_all.
Qed.

Lemma stop_while_idle_is_noop_witness :
  result (stop_recording (Sample.online Posix (inl "x"))) Sample.idle = Ret "" /\
  run (stop_recording (Sample.online Posix (inl "x"))) Sample.idle = Sample.idle.
Proof.
  assert (Hidle : is_recording (recorder Sample.idle) = false)
    by (vm_compute; reflexivity).
  destruct (stop_while_idle_is_noop (Sample.online Posix (inl "x")) Sample.idle Hidle)
    as (Hr & Hs & _).
  exact (conj Hr Hs).
Defined.

Lemma audio_callback_exec (indata : chunk) (s : Sys) :
  audio_callback indata s =
    (Ret tt,
     if is_recording (recorder s)
     then with_recorder (fun r => mkRecorder (is_recording r) (audio_data r ++ [indata])
                                             (recording_thread r) (client r)) s
     else s).
Proof.
  apply wp_eq. unfold audio_callback. wp_go.
  destruct (is_recording (recorder s)); wp_go; reflexivity.
Qed.

Lemma capture_exec (blocks : list chunk) (s : Sys) :
  capture blocks s =
    (Ret tt,
     if is_recording (recorder s)
     then with_recorder (fun r => mkRecorder (is_recording r) (audio_data r ++ blocks)
                                             (recording_thread r) (client r)) s
     else s).
Proof.
  revert s. induction blocks as [|b blocks IH]; intros s.
  - cbn [capture]. unfold ret. f_equal.
    destruct s as [cfg [ir ad th cl] air hk mf sf tm n tr].
    unfold with_recorder. cbn. rewrite app_nil_r. destruct ir; reflexivity.
  - cbn [capture]. apply wp_eq. wp_go.
    eapply wp_use; [apply audio_callback_exec |]. wp_go.
    eapply wp_use; [apply IH |].
    destruct s as [cfg [ir ad th cl] air hk mf sf tm n tr].
    unfold with_recorder. cbn. destruct ir; cbn; [| reflexivity].
    rewrite <- app_assoc. reflexivity.
Qed.

(** X2. Blocks delivered by the input stream while the recorder is recording
    are appended to the buffer in the order of delivery, none lost and none
    repeated, and nothing else changes; blocks delivered while it is not
    recording are all dropped. *)
Theorem capture_appends_in_order (blocks : list chunk) (s : Sys) :
  result (capture blocks) s = Ret tt /\
  (is_recording (recorder s) = true ->
   audio_data (recorder (run (capture blocks) s)) = audio_data (recorder s) ++ blocks /\
   run (capture blocks) s =
     with_recorder (fun r => mkRecorder true (audio_data r ++ blocks)
                                        (recording_thread r) (client r)) s) /\
  (is_recording (recorder s) = false -> run (capture blocks) s = s).
Proof.
  unfold result, run. rewrite capture_exec. cbn [fst snd].
  split; [reflexivity |]. split; intros H; rewrite H; [| reflexivity].
  split; [reflexivity |].
  destruct s as [cfg [ir ad th cl] air hk mf sf tm n tr].
  cbn in H. subst ir. reflexivity.
Qed.

Lemma capture_appends_in_order_witness :
  audio_data (recorder (run (capture [[6]%Z; [7; 8]%Z]) Sample.captured))
  = [[1; 2]%Z; [3]%Z; [4; 5]%Z; [6]%Z; [7; 8]%Z] /\
  run (capture [[6]%Z; [7; 8]%Z]) Sample.idle = Sample.idle.
Proof.
  destruct (capture_appends_in_order [[6]%Z; [7; 8]%Z] Sample.captured)
    as (_ & Hon & _).
  destruct (capture_appends_in_order [[6]%Z; [7; 8]%Z] Sample.idle)
    as (_ & _ & Hoff).
  split.
  - rewrite (proj1 (Hon ltac:(vm_compute; reflexivity))). vm_compute. reflexivity.
  - apply Hoff. vm_compute. reflexivity.
Defined.

(** a [start()] that goes through, in full *)
Lemma start_recording_ok (w : World) (s : Sys) (key : string) :
  is_recording (recorder s) = false ->
  client (recorder s) = Some key ->
  query_devices w = None ->
  thread_start w = None ->
  start_recording w s =
    (Ret true,
     mkSys (config s) (mkRecorder true [] (Some (threads s)) (Some key))
           (app_is_recording s) (hotkeys s) (main_file s) (sensitive_file s)
           (tmp s) (S (threads s))
           (trace s ++ [StatusUpdate "Recording..."; RecordingStateChanged true;
                        ThreadStart (threads s)])).
Proof.
  intros Hidle Hclient Hdev Hthread.
  destruct s as [cfg [ir ad th cl] air hk mf sf tm n tr].
  simpl in Hidle, Hclient. subst ir cl.
  apply wp_eq. unfold start_recording. wp_go.
  rewrite Hdev. wp_go. rewrite Hthread. wp_go.
  flatten. reflexivity.
Qed.

Lemma concat_uniform (n : nat) (blocks : list chunk) :
  Forall (fun c => length c = n) blocks ->
  length (concat blocks) = (length blocks * n)%nat.
Proof.
  induction 1 as [|c blocks Hc _ IH]; [reflexivity |].
  cbn [concat length]. rewrite length_app, IH, Hc. lia.
Qed.

(** X3. One whole session.  After a [start()] that goes through, the blocks
    the stream delivers, and [stop()], the one remote call made carries the
    concatenation of exactly those blocks in the order of capture: whatever
    an earlier session left in the buffer is gone, and with [N] blocks of [n]
    samples each the waveform has [N * n] samples. *)
Theorem session_uploads_blocks_in_capture_order
    (w1 w2 : World) (s : Sys) (key : string) (model language : value)
    (b : chunk) (bs : list chunk) :
  is_recording (recorder s) = false ->
  client (recorder s) = Some key ->
  query_devices w1 = None ->
  thread_start w1 = None ->
  config s !! "model" = Some model ->
  config s !! "language" = Some language ->
  let s1 := run (start_recording w1;; capture (b :: bs)) s in
  let s2 := run (stop_recording w2) s1 in
  audio_data (recorder s1) = b :: bs /\
  remote_calls (events_since s1 s2) =
    [TranscriptionsCreate key model language (concat (b :: bs))] /\
  result (stop_recording w2) s1 =
    Ret (transcript (transcriptions_create w2 key model language (concat (b :: bs)))) /\
  (forall n, Forall (fun c => length c = n) (b :: bs) ->
             length (concat (b :: bs)) = (length (b :: bs) * n)%nat).
Proof.
  intros Hidle Hclient Hdev Hthread Hmodel Hlanguage s1 s2.
  assert (Hs1 : s1 =
            mkSys (config s) (mkRecorder true (b :: bs) (Some (threads s)) (Some key))
                  (app_is_recording s) (hotkeys s) (main_file s) (sensitive_file s)
                  (tmp s) (S (threads s))
                  (trace s ++ [StatusUpdate "Recording..."; RecordingStateChanged true;
                               ThreadStart (threads s)])).
  { subst s1. unfold run.
    match goal with
    | |- snd (?m s) = _ => pattern (m s)
    end.
    apply wp_intro. wp_go.
    eapply wp_use; [apply (start_recording_ok w1 s key); assumption |]. wp_go.
    eapply wp_use; [apply capture_exec |]. reflexivity. }
  assert (Hactive : is_recording (recorder s1) = true) by (rewrite Hs1; reflexivity).
  assert (Hdata : audio_data (recorder s1) = b :: bs) by (rewrite Hs1; reflexivity).
  assert (Hc : client (recorder s1) = Some key) by (rewrite Hs1; reflexivity).
  assert (Hm : config s1 !! "model" = Some model) by (rewrite Hs1; exact Hmodel).
  assert (Hl : config s1 !! "language" = Some language) by (rewrite Hs1; exact Hlanguage).
  destruct (stop_recording_answer w2 s1 b bs key model language
              Hactive Hdata Hc Hm Hl _ eq_refl) as (Hres & Hevs & _).
  split; [exact Hdata |]. split; [| split; [exact Hres |]].
  - subst s2. rewrite Hevs.
    rewrite !remote_calls_app, remote_calls_joined.
    destruct (transcriptions_create w2 key model language (concat (b :: bs)));
      [| reflexivity].
    cbn [verdict]. destruct (PyStr.nonempty _); reflexivity.
  - intros n. apply concat_uniform.
Qed.

Lemma session_uploads_blocks_in_capture_order_witness :
  remote_calls
    (events_since
       (run (start_recording (Sample.online Posix (inl ""));; capture [[6]%Z; [7]%Z])
            Later.stopped)
       (run (stop_recording (Sample.online Posix (inl "ok")))
            (run (start_recording (Sample.online Posix (inl ""));; capture [[6]%Z; [7]%Z])
                 Later.stopped)))
  = [TranscriptionsCreate "sk-test" (VStr "whisper-1") (VStr "en") [6; 7]%Z].
Proof.
  refine (proj1 (proj2 (session_uploads_blocks_in_capture_order
            (Sample.online Posix (inl "")) (Sample.online Posix (inl "ok"))
            Later.stopped
            "sk-test" (VStr "whisper-1") (VStr "en") [6]%Z [[7]%Z]
            _ _ _ _ _ _)));
    vm_compute; reflexivity.
Defined.

(** X4. When the sound devices cannot be queried, [start()] does not crash:
    it returns failure, says why on the status channel, signals "not
    recording", and leaves the session Idle with its buffer and thread
    handle untouched and no thread made. *)
Theorem start_fails_loudly_without_device (w : World) (s : Sys) (key e : string) :
  is_recording (recorder s) = false ->
  client (recorder s) = Some key ->
  query_devices w = Some e ->
  result (start_recording w) s = Ret false /\
  events_since s (run (start_recording w) s) =
    [StatusUpdate ("Error in start_recording: " +:+ e); RecordingStateChanged false] /\
  recorder (run (start_recording w) s) = recorder s /\
  threads (run (start_recording w) s) = threads s.
Proof.
  intros Hidle Hclient Hdev.
  destruct s as [cfg [ir ad th cl] air hk mf sf tm n tr].
  simpl in Hidle, Hclient. subst ir cl.
  unfold result, run.
  match goal with
  | |- context [start_recording w ?s] => pattern (start_recording w s)
  end.
  apply wp_intro. unfold start_recording. wp_go.
  rewrite Hdev. wp_go.
  split; [reflexivity |]. split; [| split; reflexivity].
  apply events_since_app. cbn [trace]. rewrite <- !app_assoc. reflexivity.
Qed.

Lemma start_fails_loudly_without_device_witness :
  result (start_recording Later.no_device) Sample.idle = Ret false.
Proof.
  refine (proj1 (start_fails_loudly_without_device Later.no_device
            Sample.idle "sk-test" "Error querying device -1" _ _ _));
    vm_compute; reflexivity.
Defined.

(** X5. When the capture thread cannot be started, [start()] has already
    set the flag, cleared the buffer and announced "Recording..."; the
    handler takes the flag back and hides the indicator again, so the call
    returns failure with the session Idle.  The cleared buffer and the
    handle of the thread that never ran stay. *)
Theorem start_rolls_back_when_thread_fails (w : World) (s : Sys) (key e : string) :
  is_recording (recorder s) = false ->
  client (recorder s) = Some key ->
  query_devices w = None ->
  thread_start w = Some e ->
  result (start_recording w) s = Ret false /\
  events_since s (run (start_recording w) s) =
    [StatusUpdate "Recording..."; RecordingStateChanged true;
     StatusUpdate ("Error in start_recording: " +:+ e); RecordingStateChanged false] /\
  recorder (run (start_recording w) s) =
    mkRecorder false [] (Some (threads s)) (Some key) /\
  indicator_shown (events_since s (run (start_recording w) s)) = false.
Proof.
  intros Hidle Hclient Hdev Hthread.
  destruct s as [cfg [ir ad th cl] air hk mf sf tm n tr].
  simpl in Hidle, Hclient. subst ir cl.
  unfold result, run.
  match goal with
  | |- context [start_recording w ?s] => pattern (start_recording w s)
  end.
  apply wp_intro. unfold start_recording. wp_go.
  rewrite Hdev. wp_go. rewrite Hthread. wp_go.
  assert (Hevs : events_since
                   (mkSys cfg (mkRecorder false ad th (Some key)) air hk mf sf tm n tr)
                   (mkSys cfg (mkRecorder false [] (Some n) (Some key)) air hk mf sf tm
                          (S n)
                          ((((tr ++ [StatusUpdate "Recording..."])
                               ++ [RecordingStateChanged true])
                              ++ [StatusUpdate ("Error in start_recording: " +:+ e)])
                             ++ [RecordingStateChanged false]))
                 = [StatusUpdate "Recording..."; RecordingStateChanged true;
                    StatusUpdate ("Error in start_recording: " +:+ e);
                    RecordingStateChanged false]).
  { apply events_since_app. cbn [trace]. rewrite <- !app_assoc. reflexivity. }
  rewrite Hevs. repeat split.
Qed.

Lemma start_rolls_back_when_thread_fails_witness :
  recorder (run (start_recording Later.no_thread) Later.stopped)
  = mkRecorder false [] (Some 1%nat) (Some "sk-test").
Proof.
  refine (eq_trans
            (proj1 (proj2 (proj2 (start_rolls_back_when_thread_fails
               Later.no_thread Later.stopped "sk-test" "can't start new thread"
               _ _ _ _))))
            _);
    vm_compute; reflexivity.
Defined.

(** ** The recording indicator *)

Lemma indicator_snoc (evs : list event) (e : event) :
  indicator_shown (evs ++ [e]) =
    match e with
    | RecordingStateChanged b => b
    | _ => indicator_shown evs
    end.
Proof.
  unfold indicator_shown. rewrite foldl_snoc.
  destruct e as [| [|] | | | | | | |]; reflexivity.
Qed.

Lemma indicator_app_silent (evs more : list event) :
  Forall no_state_signal more ->
  indicator_shown (evs ++ more) = indicator_shown evs.
Proof.
  intros H. revert evs. induction H as [|e more He _ IH]; intros evs.
  - rewrite app_nil_r. reflexivity.
  - change (e :: more) with ([e] ++ more). rewrite app_assoc, IH, indicator_snoc.
    destruct e; simpl in He; tauto.
Qed.

Lemma indicator_app_signal (evs more : list event) (b : bool) :
  Forall no_state_signal more ->
  indicator_shown (evs ++ [RecordingStateChanged b] ++ more) = b.
Proof.
  intros H. rewrite app_assoc, (indicator_app_silent _ more H), indicator_snoc.
  reflexivity.
Qed.

Lemma probing_silent (evs : list event) :
  Forall probing evs -> Forall no_state_signal evs.
Proof.
  intros H. eapply Forall_impl; [exact H |].
  intros [] He; simpl in *; tauto.
Qed.

Lemma joined_silent (t : option nat) : Forall no_state_signal (joined t).
Proof. destruct t; repeat constructor. Qed.

Lemma attempt_silent (w : World) (s : Sys) (audio : list sample) :
  Forall no_state_signal (fst (attempt w s audio) ++ verdict (snd (attempt w s audio))).
Proof.
  unfold attempt.
  destruct (client (recorder s)), (config s !! "model"), (config s !! "language");
    simpl; repeat constructor.
  destruct (transcriptions_create _ _ _ _ _); simpl; repeat constructor.
  destruct (PyStr.nonempty _); repeat constructor.
Qed.

Lemma start_keeps_indicator_in_step (w : World) (s : Sys) :
  indicator_in_step s -> indicator_in_step (run (start_recording w) s).
Proof.
  unfold indicator_in_step. intros Hinv.
  destruct (is_recording (recorder s)) eqn:Hr.
  { unfold run. rewrite (start_recording_busy w s Hr). cbn [snd]. congruence. }
  destruct s as [cfg [ir ad th cl] air hk mf sf tm n tr].
  cbn [trace recorder is_recording] in Hr, Hinv. subst ir. unfold run.
  match goal with
  | |- context [start_recording w ?s] => pattern (start_recording w s)
  end.
  apply wp_intro. unfold start_recording. wp_go.
  destruct cl as [key|].
  - wp_auto; rewrite ?indicator_snoc; auto.
  - wp_go.
    match goal with
    | |- wp (_init_openai_client w) _ ?s =>
        destruct (init_openai_client_frame w s) as (b & c & evs & Heq & Hevs & _);
        eapply wp_use; [exact Heq |]
    end.
    unfold touched. apply probing_silent in Hevs.
    pose proof (indicator_app_silent tr evs Hevs) as Hsame.
    destruct b; wp_auto; rewrite ?indicator_snoc; cbn [trace] in Hsame; congruence.
Qed.

Lemma stop_hides_indicator (w : World) (s : Sys) :
  indicator_in_step s -> indicator_in_step (run (stop_recording w) s).
Proof.
  unfold indicator_in_step. intros Hinv. unfold run.
  destruct (is_recording (recorder s)) eqn:Hr.
  - destruct (audio_data (recorder s)) as [|c cs] eqn:Ha.
    + rewrite (stop_recording_silent w s Hr Ha). cbn [snd trace recorder is_recording].
      apply indicator_app_signal.
      apply Forall_app. split; [apply joined_silent | repeat constructor].
    + rewrite (stop_recording_upload w s c cs Hr Ha).
      cbn [snd trace recorder is_recording].
      apply indicator_app_signal.
      apply Forall_app. split; [apply joined_silent |].
      apply Forall_cons. split; [exact I | apply attempt_silent].
  - rewrite (stop_recording_idle w s Hr). cbn [snd]. congruence.
Qed.

Lemma step_keeps_indicator_in_step (w : World) (a : action) (s : Sys) :
  indicator_in_step s -> indicator_in_step (run (step w a) s).
Proof.
  intros Hinv. destruct a as [| |indata|e]; unfold run, step.
  - pose proof (start_keeps_indicator_in_step w s Hinv) as H. unfold run in H.
    rewrite bind_then_tt.
    destruct (start_recording_frame w s) as (b & r & n & evs & Heq & _).
    rewrite Heq in *. exact H.
  - pose proof (stop_hides_indicator w s Hinv) as H. unfold run in H.
    rewrite bind_then_tt.
    destruct (stop_recording_returns w s) as (text & s' & Heq & _).
    rewrite Heq in *. exact H.
  - rewrite audio_callback_exec. cbn [snd]. unfold indicator_in_step in *.
    destruct s as [cfg [ir ad th cl] air hk mf sf tm n tr].
    unfold with_recorder. cbn [trace recorder is_recording] in *.
    destruct ir; exact Hinv.
  - unfold indicator_in_step.
    match goal with
    | |- context [_record_audio_failed e ?s] => pattern (_record_audio_failed e s)
    end.
    apply wp_intro. unfold _record_audio_failed.
    destruct s as [cfg [ir ad th cl] air hk mf sf tm n tr].
    wp_go. rewrite indicator_snoc. reflexivity.
Qed.

(** X6. The recording indicator is visible exactly when the recorder is
    recording: this holds once the recorder is constructed (on a hidden
    indicator) and after every history of [start()], [stop()], delivered
    blocks and stream failures, whatever the outside answers. *)
Theorem indicator_tracks_session
    (w0 : World) (s0 : Sys) (l : list (World * action)) :
  indicator_shown (trace s0) = false ->
  indicator_shown (trace (steps l (run (AudioRecorder_init w0) s0)))
  = is_recording (recorder (steps l (run (AudioRecorder_init w0) s0))).
Proof.
  intros Hhidden.
  assert (Hinit : indicator_in_step (run (AudioRecorder_init w0) s0)).
  { unfold indicator_in_step, run, AudioRecorder_init.
    set (s1 := with_recorder (fun _ => mkRecorder false [] None None) s0).
    destruct (init_openai_client_frame w0 s1) as (b & c & evs & Heq & Hevs & _).
    change ((modify (with_recorder (fun _ => mkRecorder false [] None None))
               ≫= fun _ => _init_openai_client w0 ≫= fun _ => ret tt) s0)
      with ((_init_openai_client w0 ≫= fun _ => ret tt) s1).
    rewrite bind_then_tt, Heq. unfold touched. cbn [snd trace recorder is_recording].
    rewrite (indicator_app_silent _ _ (probing_silent _ Hevs)).
    subst s1. destruct s0; exact Hhidden. }
  change (indicator_in_step (steps l (run (AudioRecorder_init w0) s0))).
  generalize dependent (run (AudioRecorder_init w0) s0). clear Hhidden.
  induction l as [|[w a] l IH]; intros s Hs; [exact Hs |].
  apply IH. apply step_keeps_indicator_in_step. exact Hs.
Qed.

Lemma indicator_tracks_session_witness :
  indicator_shown
    (trace (steps [(Sample.online Posix (inl ""), Start);
                   (Sample.online Posix (inl ""), Block [1]%Z);
                   (Sample.online Posix (inl ""), StreamFailure "Stream closed")]
                  (run (AudioRecorder_init (Sample.online Posix (inl "")))
                       Sample.unconfigured)))
  = false.
Proof.
  refine (eq_trans
            (indicator_tracks_session (Sample.online Posix (inl "")) Sample.unconfigured
               [(Sample.online Posix (inl ""), Start);
                (Sample.online Posix (inl ""), Block [1]%Z);
                (Sample.online Posix (inl ""), StreamFailure "Stream closed")] _) _);
    vm_compute; reflexivity.
Defined.

(** ** More on [stop()] *)

(** X7. After a remote call that succeeded, [stop()] reports "Transcription
    complete" exactly when the trimmed text is not empty; for an empty or
    whitespace-only answer it returns the empty string and the only status
    message is the progress message. *)
Theorem stop_announces_only_nonblank_text (w : World) (s : Sys)
    (c : chunk) (cs : list chunk) (key : string) (model language : value)
    (text : string) :
  is_recording (recorder s) = true ->
  audio_data (recorder s) = c :: cs ->
  client (recorder s) = Some key ->
  config s !! "model" = Some model ->
  config s !! "language" = Some language ->
  transcriptions_create w key model language (concat (c :: cs)) = inl text ->
  status_messages (events_since s (run (stop_recording w) s)) =
    (if PyStr.nonempty (PyStr.strip text)
     then ["Transcribing..."; "Transcription complete"]
     else ["Transcribing..."]) /\
  (PyStr.all_space text = true -> result (stop_recording w) s = Ret "").
Proof.
  intros Hactive Hdata Hclient Hmodel Hlanguage Hok.
  destruct (stop_recording_answer w s c cs key model language
              Hactive Hdata Hclient Hmodel Hlanguage (inl text) Hok)
    as (Hres & Hevs & _).
  split.
  - rewrite Hevs, !status_messages_app, status_messages_joined.
    cbn [verdict]. destruct (PyStr.nonempty (PyStr.strip text)); reflexivity.
  - intros Hblank. rewrite Hres. cbn [transcript]. f_equal.
    clear -Hblank. unfold PyStr.strip.
    induction text as [|a text IH]; [reflexivity |].
    cbn [PyStr.all_space] in Hblank. apply andb_true_iff in Hblank as [Ha Ht].
    cbn [PyStr.lstrip]. rewrite Ha. exact (IH Ht).
Qed.

Lemma stop_announces_only_nonblank_text_witness :
  status_messages
    (events_since Sample.captured
       (run (stop_recording (Sample.online Posix (inl "   "))) Sample.captured))
  = ["Transcribing..."].
Proof.
  refine (eq_trans
            (proj1 (stop_announces_only_nonblank_text
               (Sample.online Posix (inl "   ")) Sample.captured
               [1; 2]%Z [[3]%Z; [4; 5]%Z] "sk-test" (VStr "whisper-1") (VStr "en")
               "   " _ _ _ _ _ _)) _);
    vm_compute; reflexivity.
Defined.

(** X8. When the upload cannot even be attempted, because the recorder has
    no client or the configuration has no [model] or no [language], [stop()]
    still returns the empty string: no remote call is made, the exception is
    reported as "Error in transcription: ..." after the progress message,
    and the session ends Idle. *)
Theorem stop_survives_missing_setting (w : World) (s : Sys)
    (c : chunk) (cs : list chunk) :
  is_recording (recorder s) = true ->
  audio_data (recorder s) = c :: cs ->
  client (recorder s) = None \/ config s !! "model" = None
    \/ config s !! "language" = None ->
  result (stop_recording w) s = Ret "" /\
  remote_calls (events_since s (run (stop_recording w) s)) = [] /\
  (exists e,
      (e = "'NoneType' object has no attribute 'audio'" \/ e = "'model'"
       \/ e = "'language'") /\
      status_messages (events_since s (run (stop_recording w) s)) =
        ["Transcribing..."; "Error in transcription: " +:+ e]) /\
  state_of (run (stop_recording w) s) = Idle.
Proof.
  intros Hactive Hdata Hmissing.
  unfold result, run, state_of.
  rewrite (stop_recording_upload w s c cs Hactive Hdata).
  cbn [fst snd recorder is_recording].
  erewrite events_since_app by reflexivity.
  rewrite !status_messages_app, !remote_calls_app.
  rewrite status_messages_joined, remote_calls_joined.
  unfold attempt.
  destruct (client (recorder s)) as [key|];
    [destruct (config s !! "model") as [model|];
       [destruct (config s !! "language") as [language|] |] |];
    cbn [fst snd transcript verdict].
  - destruct Hmissing as [H | [H | H]]; discriminate.
  - repeat split. exists "'language'". auto.
  - repeat split. exists "'model'". auto.
  - repeat split. exists "'NoneType' object has no attribute 'audio'". auto.
Qed.

Lemma stop_survives_missing_setting_witness :
  result (stop_recording (Sample.online Posix (inl "never asked")))
         (run (set_config (delete "model" (config Sample.captured))) Sample.captured)
  = Ret "".
Proof.
  refine (proj1 (stop_survives_missing_setting
            (Sample.online Posix (inl "never asked"))
            (run (set_config (delete "model" (config Sample.captured))) Sample.captured)
            [1; 2]%Z [[3]%Z; [4; 5]%Z] _ _ _)).
  - vm_compute. reflexivity.
  - vm_compute. reflexivity.
  - right. left. vm_compute. reflexivity.
Defined.

Lemma stop_recording_recorder (w : World) (s : Sys) :
  recorder (run (stop_recording w) s) =
    mkRecorder false (audio_data (recorder s)) (recording_thread (recorder s))
               (client (recorder s)).
Proof.
  unfold run.
  destruct (is_recording (recorder s)) eqn:Hr.
  - destruct (audio_data (recorder s)) as [|c cs] eqn:Ha.
    + rewrite (stop_recording_silent w s Hr Ha). reflexivity.
    + rewrite (stop_recording_upload w s c cs Hr Ha). reflexivity.
  - rewrite (stop_recording_idle w s Hr). cbn [snd].
    destruct s as [cfg [ir ad th cl] air hk mf sf tm n tr].
    cbn in *. subst ir. reflexivity.
Qed.

(** X9. [stop()] does not empty the buffer: the captured blocks, the thread
    handle and the client are as before, only the flag is reset.  A second
    [stop()] right after is a no-op that returns the empty string, so the
    same audio is never uploaded twice. *)
Theorem stop_keeps_buffer_and_stops_once (w1 w2 : World) (s : Sys) :
  recorder (run (stop_recording w1) s) =
    mkRecorder false (audio_data (recorder s)) (recording_thread (recorder s))
               (client (recorder s)) /\
  result (stop_recording w2) (run (stop_recording w1) s) = Ret "" /\
  run (stop_recording w2) (run (stop_recording w1) s) = run (stop_recording w1) s.
Proof.
  split; [apply stop_recording_recorder |].
  assert (Hidle : is_recording (recorder (run (stop_recording w1) s)) = false)
    by (rewrite stop_recording_recorder; reflexivity).
  unfold result at 1, run at 2.
  rewrite (stop_recording_idle w2 _ Hidle). split; reflexivity.
Qed.

(** ** The credential probe *)

Lemma refused_locally_iff (k : string) :
  refused_locally k = true <->
  PyStr.strip k = "" \/ PyStr.contains "your-api-key" k = true.
Proof.
  unfold refused_locally. rewrite !orb_true_iff, !negb_true_iff. split.
  - intros [[Hk | Hs] | Hc]; [left | left | right; exact Hc].
    + destruct k; [reflexivity | discriminate].
    + destruct (PyStr.strip k); [reflexivity | discriminate].
  - intros [Hs | Hc]; [left; right; rewrite Hs; reflexivity | right; exact Hc].
Qed.

Lemma init_openai_client_string (w : World) (s : Sys) (k : string) :
  config s !! "api_key" = Some (VStr k) ->
  _init_openai_client w s =
    if refused_locally k
    then (Ret false,
          with_client s (client (recorder s))
            [StatusUpdate "Error: No valid OpenAI API key found in config"])
    else match models_list w k with
         | None => (Ret true, with_client s (Some k) [ModelsList k])
         | Some e =>
             (Ret false,
              with_client s None
                [ModelsList k; StatusUpdate ("Error testing OpenAI API: " +:+ e)])
         end.
Proof.
  intros Hk.
  destruct s as [cfg [ir ad th cl] air hk mf sf tm n tr].
  cbn [config] in Hk. unfold with_client, touched. wp_fields.
  apply wp_eq. unfold _init_openai_client. wp_go. rewrite Hk. wp_go.
  fold (refused_locally k). destruct (refused_locally k); wp_go.
  - reflexivity.
  - destruct (models_list w k); wp_go; flatten; reflexivity.
Qed.

(** X10. A configured key that is blank or contains the placeholder
    [your-api-key] is refused without asking the remote service: the probe
    returns failure with one status message, and it leaves the client as it
    was, so a client kept from an earlier key stays in place. *)
Theorem blank_key_is_refused_without_probe (w : World) (s : Sys) (k : string) :
  config s !! "api_key" = Some (VStr k) ->
  PyStr.strip k = "" \/ PyStr.contains "your-api-key" k = true ->
  result (_init_openai_client w) s = Ret false /\
  events_since s (run (_init_openai_client w) s) =
    [StatusUpdate "Error: No valid OpenAI API key found in config"] /\
  recorder (run (_init_openai_client w) s) = recorder s.
Proof.
  intros Hk Hbad. apply refused_locally_iff in Hbad.
  unfold result, run. rewrite (init_openai_client_string w s k Hk), Hbad.
  cbn [fst snd]. split; [reflexivity |]. split.
  - apply events_since_app. reflexivity.
  - destruct s as [cfg [ir ad th cl] air hk mf sf tm n tr]. reflexivity.
Qed.

Lemma blank_key_is_refused_without_probe_witness :
  recorder (run (_init_openai_client (Sample.online Posix (inl "")))
                (run (set_config (<["api_key" := VStr "  "]> (config Sample.idle)))
                     Sample.idle))
  = mkRecorder false [] None (Some "sk-test").
Proof.
  refine (eq_trans
            (proj2 (proj2 (blank_key_is_refused_without_probe
               (Sample.online Posix (inl ""))
               (run (set_config (<["api_key" := VStr "  "]> (config Sample.idle)))
                    Sample.idle)
               "  " _ _))) _).
  - vm_compute. reflexivity.
  - left. vm_compute. reflexivity.
  - vm_compute. reflexivity.
Defined.

(** X11. A key that passes the local test is probed once.  If the service
    accepts it the probe returns success and the recorder holds a client for
    exactly that key, with no status message; if the service rejects it the
    probe returns failure, the recorder holds no client (an earlier one is
    dropped), and the status message carries the reason. *)
Theorem probe_decides_the_client (w : World) (s : Sys) (k : string) :
  config s !! "api_key" = Some (VStr k) ->
  refused_locally k = false ->
  match models_list w k with
  | None =>
      result (_init_openai_client w) s = Ret true /\
      client (recorder (run (_init_openai_client w) s)) = Some k /\
      events_since s (run (_init_openai_client w) s) = [ModelsList k]
  | Some e =>
      result (_init_openai_client w) s = Ret false /\
      client (recorder (run (_init_openai_client w) s)) = None /\
      events_since s (run (_init_openai_client w) s) =
        [ModelsList k; StatusUpdate ("Error testing OpenAI API: " +:+ e)]
  end.
Proof.
  intros Hk Hgood.
  unfold result, run. rewrite (init_openai_client_string w s k Hk), Hgood.
  destruct (models_list w k); cbn [fst snd];
    (split; [reflexivity |]; split; [reflexivity |];
     apply events_since_app; reflexivity).
Qed.

Lemma probe_decides_the_client_witness :
  client (recorder (run (_init_openai_client (Sample.online Posix (inl "")))
                        Later.loaded))
  = Some "sk-test".
Proof.
  exact (proj1 (proj2 (probe_decides_the_client
           (Sample.online Posix (inl "")) Later.loaded "sk-test"
           ltac:(vm_compute; reflexivity) ltac:(vm_compute; reflexivity)))).
Defined.

(** X12. A key that is not a string but is true in Python (a number or
    [true] in the JSON document) makes [api_key.strip()] raise; the outer
    handler turns that into a failed probe: failure is returned, the client
    is dropped, and the status message names the type. *)
Theorem non_string_key_fails_the_probe (w : World) (s : Sys) (v : value) :
  config s !! "api_key" = Some v ->
  truthy v = true ->
  (forall k, v <> VStr k) ->
  result (_init_openai_client w) s = Ret false /\
  client (recorder (run (_init_openai_client w) s)) = None /\
  events_since s (run (_init_openai_client w) s) =
    [StatusUpdate ("Error initializing OpenAI client: '" +:+ type_name v
                   +:+ "' object has no attribute 'strip'")].
Proof.
  intros Hk Htrue Hnostr.
  destruct s as [cfg [ir ad th cl] air hk mf sf tm n tr].
  cbn [config] in Hk. unfold result, run.
  match goal with
  | |- context [_init_openai_client w ?s] => pattern (_init_openai_client w s)
  end.
  apply wp_intro. unfold _init_openai_client. wp_go. rewrite Hk.
  destruct v as [| b | z | m e | k]; try discriminate Htrue;
    try (exfalso; apply (Hnostr k); reflexivity);
    wp_go; rewrite Htrue; wp_go;
    (split; [reflexivity |]; split; [reflexivity |];
     apply events_since_app; reflexivity).
Qed.

Lemma non_string_key_fails_the_probe_witness :
  events_since
    (run (set_config (<["api_key" := VInt 12345]> (config Sample.idle))) Sample.idle)
    (run (_init_openai_client (Sample.online Posix (inl "")))
         (run (set_config (<["api_key" := VInt 12345]> (config Sample.idle)))
              Sample.idle))
  = [StatusUpdate
       "Error initializing OpenAI client: 'int' object has no attribute 'strip'"].
Proof.
  refine (eq_trans
            (proj2 (proj2 (non_string_key_fails_the_probe
               (Sample.online Posix (inl ""))
               (run (set_config (<["api_key" := VInt 12345]> (config Sample.idle)))
                    Sample.idle)
               (VInt 12345) _ _ _))) _).
  - vm_compute. reflexivity.
  - reflexivity.
  - intros k. discriminate.
  - vm_compute. reflexivity.
Defined.

(** ** New settings reaching the recorder *)

Lemma recorder_update_config_exec (w : World) (c : gmap string value) (s : Sys) :
  exists (b : bool) (r : Recorder) (t : gmap string tmpfile) (evs : list event),
    recorder_update_config w c s =
      (Ret b,
       mkSys c r (app_is_recording s) (hotkeys s) (main_file s) (sensitive_file s)
             t (threads s) (trace s ++ evs ++ [update_verdict b])) /\
    is_recording r = false /\
    audio_data r = audio_data (recorder s) /\
    keystrokes evs = [].
Proof.
  destruct s as [cfg [ir ad th cl] air hk mf sf tm n tr].
  match goal with
  | |- context [recorder_update_config w c ?s] =>
      pattern (recorder_update_config w c s)
  end.
  apply wp_intro. unfold recorder_update_config. wp_go.
  destruct ir; wp_go.
  - match goal with
    | |- wp (stop_recording w) _ ?s =>
        destruct (stop_recording_frame w s) as (text & r' & t & evs & Heq & Hidle & Hks);
        pose proof (stop_recording_recorder w s) as Hrec;
        unfold run in Hrec; rewrite Heq in Hrec;
        cbn [snd recorder audio_data recording_thread client is_recording] in Hrec;
        eapply wp_use; [exact Heq |]
    end.
    wp_go.
    match goal with
    | |- wp (_init_openai_client w) _ ?s =>
        destruct (init_openai_client_frame w s) as (b & cl' & evs' & Heq' & Hevs' & _);
        eapply wp_use; [exact Heq' |]
    end.
    unfold touched. subst r'.
    apply probing_quiet, keystrokes_quiet in Hevs'.
    destruct b; wp_go; [exists true | exists false];
      (eexists _, _, (evs ++ evs'); split;
       [unfold update_verdict; rewrite <- !app_assoc; reflexivity |];
       split; [reflexivity |]; split; [reflexivity |];
       rewrite keystrokes_app, Hks, Hevs'; reflexivity).
  - match goal with
    | |- wp (_init_openai_client w) _ ?s =>
        destruct (init_openai_client_frame w s) as (b & cl' & evs' & Heq' & Hevs' & _);
        eapply wp_use; [exact Heq' |]
    end.
    unfold touched.
    apply probing_quiet, keystrokes_quiet in Hevs'.
    destruct b; wp_go; [exists true | exists false];
      (eexists _, _, evs'; split;
       [unfold update_verdict; rewrite <- !app_assoc; reflexivity |];
       split; [reflexivity |]; split; [reflexivity |]; exact Hevs').
Qed.








(** X14. Clearing the key does not take the old one away.  When the new
    dictionary has a blank key and the recorder holds a client from an
    earlier key, [AudioRecorder.update_config] reports failure, yet the
    client stays, and the next [start()] records with it without any
    probe. *)
Theorem blank_key_update_keeps_old_client
    (w w' : World) (c : gmap string value) (s : Sys) (k old : string) :
  is_recording (recorder s) = false ->
  client (recorder s) = Some old ->
  c !! "api_key" = Some (VStr k) ->
  PyStr.strip k = "" ->
  query_devices w' = None ->
  thread_start w' = None ->
  let s1 := run (recorder_update_config w c) s in
  result (recorder_update_config w c) s = Ret false /\
  client (recorder s1) = Some old /\
  result (start_recording w') s1 = Ret true /\
  events_since s1 (run (start_recording w') s1) =
    [StatusUpdate "Recording..."; RecordingStateChanged true; ThreadStart (threads s1)].
Proof.
  intros Hidle Hclient Hk Hblank Hdev Hthread s1.
  assert (Hs1 : recorder_update_config w c s =
                (Ret false,
                 mkSys c (recorder s) (app_is_recording s) (hotkeys s) (main_file s)
                       (sensitive_file s) (tmp s) (threads s)
                       (trace s
                          ++ [StatusUpdate "Error: No valid OpenAI API key found in config";
                              update_verdict false]))).
  { destruct s as [cfg [ir ad th cl] air hk mf sf tm n tr].
    cbn [recorder is_recording client] in Hidle, Hclient. subst ir cl.
    apply wp_eq. unfold recorder_update_config. wp_go.
    assert (Hbad : refused_locally k = true)
      by (apply refused_locally_iff; left; exact Hblank).
    match goal with
    | |- wp (_init_openai_client w) _ ?s0 =>
        pose proof (init_openai_client_string w s0 k Hk) as Hinit
    end.
    rewrite Hbad in Hinit. eapply wp_use; [exact Hinit |].
    unfold with_client, touched. wp_go.
    unfold update_verdict. flatten. reflexivity. }
  assert (Hrun : s1 = snd (recorder_update_config w c s)) by reflexivity.
  rewrite Hs1 in Hrun. cbn [snd] in Hrun.
  unfold result at 1. rewrite Hs1. cbn [fst].
  split; [reflexivity |].
  assert (Hc1 : client (recorder s1) = Some old) by (rewrite Hrun; exact Hclient).
  assert (Hi1 : is_recording (recorder s1) = false) by (rewrite Hrun; exact Hidle).
  split; [exact Hc1 |].
  destruct (start_with_cached_client w' s1 old Hi1 Hc1 Hdev Hthread) as (Hres & Hevs & _).
  split; [exact Hres | exact Hevs].
Qed.

Lemma blank_key_update_keeps_old_client_witness :
  client (recorder (run (recorder_update_config (Sample.online Posix (inl ""))
                           (<["api_key" := VStr ""]> (config Sample.idle)))
                        Sample.idle))
  = Some "sk-test".
Proof.
  refine (eq_trans
            (proj1 (proj2 (blank_key_update_keeps_old_client
               (Sample.online Posix (inl "")) (Sample.online Posix (inl ""))
               (<["api_key" := VStr ""]> (config Sample.idle)) Sample.idle
               "" "sk-test" _ _ _ _ _ _))) _);
    vm_compute; reflexivity.
Defined.

(** ** Pressing the hotkey *)

Lemma toggle_recording_starts (w : World) (s s' : Sys) (ok : bool) :
  default false (app_is_recording s) = false ->
  start_recording w (released s) = (Ret ok, s') ->
  toggle_recording w s = (Ret tt, pressed ok s').
Proof.
  intros Happ Hstart.
  destruct s as [cfg r air hk mf sf tm n tr].
  unfold released in Hstart.
  cbn [config recorder app_is_recording hotkeys main_file sensitive_file tmp
       threads trace] in Hstart, Happ.
  apply wp_eq. unfold toggle_recording. wp_go.
  destruct air as [[|]|]; try discriminate Happ; wp_go;
    cbn [default from_option id]; wp_go;
    (eapply wp_use; [exact Hstart |]); wp_go;
    destruct ok; wp_go; unfold pressed; destruct s'; reflexivity.
Qed.

Lemma toggle_keeps_flags_agreeing (w : World) (s : Sys) :
  flags_agree s ->
  result (toggle_recording w) s = Ret tt /\ flags_agree (run (toggle_recording w) s).
Proof.
  unfold flags_agree. intros Hagree.
  destruct (default false (app_is_recording s)) eqn:Happ.
  - assert (Hsome : app_is_recording s = Some true)
      by (destruct (app_is_recording s) as [[|]|]; try discriminate; reflexivity).
    destruct (stop_recording_frame w (released s))
      as (text & r & t & evs & Hstop & Hidle & _).
    unfold result, run.
    rewrite (toggle_recording_stops w s _ text Hsome Hstop). cbn [fst snd].
    split; [reflexivity |].
    cbn [app_is_recording recorder released default from_option id]. congruence.
  - destruct (start_recording_frame w (released s))
      as (ok & r & n & evs & Hstart & Hflag & _).
    unfold result, run.
    rewrite (toggle_recording_starts w s _ ok Happ Hstart). cbn [fst snd].
    split; [reflexivity |].
    unfold pressed, touched. cbn [app_is_recording recorder released] in *.
    rewrite Hflag, <- Hagree. destruct ok; reflexivity.
Qed.

(** X15. Pressing the hotkey never raises, and as long as nothing but the
    hotkey acts on the recorder, the application's recording flag and the
    recorder's flag agree after every press: a press either starts a session
    (both set, when [start()] succeeds), leaves both clear (when it fails),
    or stops the session (both clear). *)
Theorem presses_keep_flags_in_agreement (ws : list World) (w : World) (s : Sys) :
  flags_agree s ->
  flags_agree (presses ws s) /\
  result (toggle_recording w) (presses ws s) = Ret tt /\
  (is_recording (recorder (presses ws s)) = true ->
   state_of (run (toggle_recording w) (presses ws s)) = Idle) /\
  (is_recording (recorder (presses ws s)) = false ->
   (state_of (run (toggle_recording w) (presses ws s)) = Recording <->
    result (start_recording w) (released (presses ws s)) = Ret true)).
Proof.
  intros Hagree.
  assert (Hall : flags_agree (presses ws s)).
  { unfold presses. revert s Hagree.
    induction ws as [|w0 ws IH]; intros s Hagree; [exact Hagree |].
    cbn [foldl]. apply IH. apply toggle_keeps_flags_agreeing. exact Hagree. }
  set (p := presses ws s) in *.
  split; [exact Hall |]. split; [apply toggle_keeps_flags_agreeing; exact Hall |].
  unfold flags_agree in Hall. split.
  - intros Hrec. rewrite Hrec in Hall.
    assert (Hsome : app_is_recording p = Some true)
      by (destruct (app_is_recording p) as [[|]|]; try discriminate; reflexivity).
    destruct (stop_recording_frame w (released p))
      as (text & r & t & evs & Hstop & Hidle & _).
    unfold state_of, run.
    rewrite (toggle_recording_stops w p _ text Hsome Hstop). cbn [snd recorder].
    rewrite Hidle. reflexivity.
  - intros Hrec. rewrite Hrec in Hall.
    destruct (start_recording_frame w (released p))
      as (ok & r & n & evs & Hstart & Hflag & _).
    unfold state_of, run, result.
    rewrite (toggle_recording_starts w p _ ok Hall Hstart), Hstart.
    unfold pressed, touched. cbn [fst snd recorder released] in *.
    rewrite Hflag, Hrec. destruct ok; simpl; split; congruence.
Qed.

Lemma presses_keep_flags_in_agreement_witness :
  flags_agree (presses [Sample.online Posix (inl "a"); Sample.online Posix (inr "b");
                        Sample.online Posix (inl "c")] Sample.idle).
Proof.
  refine (proj1 (presses_keep_flags_in_agreement
            [Sample.online Posix (inl "a"); Sample.online Posix (inr "b");
             Sample.online Posix (inl "c")]
            (Sample.online Posix (inl "")) Sample.idle _)).
  vm_compute. reflexivity.
Defined.

(** X16. A lost press.  When the capture worker fails during a session, the
    recorder goes Idle but the application's flag still says "recording".
    The next press of the hotkey therefore takes the stop branch, where
    [stop()] has nothing to do: the press only clears the application's
    flag.  Nothing is uploaded or typed, no status is shown, and the blocks
    captured before the failure are never transcribed. *)
Theorem press_after_stream_failure_is_lost (w : World) (s : Sys) (e : string) :
  app_is_recording s = Some true ->
  let failed := run (_record_audio_failed e) s in
  state_of failed = Idle /\
  app_is_recording failed = Some true /\
  audio_data (recorder failed) = audio_data (recorder s) /\
  result (toggle_recording w) failed = Ret tt /\
  run (toggle_recording w) failed = released failed.
Proof.
  intros Happ failed.
  assert (Hfailed : failed =
            mkSys (config s)
                  (mkRecorder false (audio_data (recorder s))
                              (recording_thread (recorder s)) (client (recorder s)))
                  (Some true) (hotkeys s) (main_file s) (sensitive_file s) (tmp s)
                  (threads s)
                  (trace s ++ [StatusUpdate ("Error in audio stream: " +:+ e);
                               RecordingStateChanged false])).
  { subst failed. unfold run.
    match goal with
    | |- snd (?m s) = _ => pattern (m s)
    end.
    apply wp_intro. unfold _record_audio_failed.
    destruct s as [cfg [ir ad th cl] air hk mf sf tm n tr].
    cbn [app_is_recording] in Happ. subst air. wp_go. flatten. reflexivity. }
  assert (Hidle : is_recording (recorder (released failed)) = false)
    by (rewrite Hfailed; reflexivity).
  assert (Hflag : app_is_recording failed = Some true)
    by (rewrite Hfailed; reflexivity).
  pose proof (toggle_recording_stops w failed _ "" Hflag
                (stop_recording_idle w (released failed) Hidle)) as Htoggle.
  split; [unfold state_of; rewrite Hfailed; reflexivity |].
  split; [exact Hflag |].
  split; [rewrite Hfailed; reflexivity |].
  split; [unfold result; rewrite Htoggle; reflexivity |].
  change (snd (toggle_recording w failed) = released failed).
  rewrite Htoggle. cbn [snd].
  unfold typed. cbn [PyStr.nonempty andb]. rewrite app_nil_r. reflexivity.
Qed.

Lemma press_after_stream_failure_is_lost_witness :
  run (toggle_recording (Sample.online Posix (inl "hello")))
      (run (_record_audio_failed "Stream closed") Sample.captured)
  = released (run (_record_audio_failed "Stream closed") Sample.captured).
Proof.
  refine (proj2 (proj2 (proj2 (proj2 (press_after_stream_failure_is_lost
            (Sample.online Posix (inl "hello")) Sample.captured "Stream closed" _))))).
  vm_compute. reflexivity.
Defined.

(** ** More on the configuration store *)

Lemma secret_defaults (k : string) :
  secret k -> DEFAULT_SENSITIVE_CONFIG !! k = Some (VStr "").
Proof. rewrite secret_keys. intros [-> | ->]; reflexivity. Qed.

(** X17. The general document cannot set a secret.  For [hotkey] and
    [api_key] the loaded value is the one of the secret document, or the
    empty string when the secret document has none (or is missing or
    unreadable); whatever the general document holds for these keys is
    never used. *)
Theorem general_document_cannot_set_secrets
    (s : Sys) (other : option document) (k : string) :
  k = "hotkey" \/ k = "api_key" ->
  exists c c' : gmap string value,
    result _load_config s = Ret c /\
    result _load_config (run (set_files other (sensitive_file s)) s) = Ret c' /\
    c' !! k = c !! k /\
    c !! k = match doc_lookup (sensitive_file s) k with
             | Some v => Some v
             | None => Some (VStr "")
             end.
Proof.
  intros Hk. apply secret_keys in Hk. pose proof (secret_defaults k Hk) as Hd.
  eexists _, _. unfold result. rewrite !load_config_exec. cbn [fst].
  split; [reflexivity |]. split; [reflexivity |].
  rewrite !load_config_lookup.
  cbn [run set_files modify snd sensitive_file main_file].
  rewrite Hd.
  destruct (doc_lookup (sensitive_file s) k); split; reflexivity.
Qed.

Lemma general_document_cannot_set_secrets_witness :
  exists c : gmap string value,
    result _load_config
      (boot (Some (Object (<["api_key" := VStr "sk-in-the-wrong-file"]> ∅))) None)
    = Ret c /\
    c !! "api_key" = Some (VStr "").
Proof.
  destruct (general_document_cannot_set_secrets
              (boot (Some (Object (<["api_key" := VStr "sk-in-the-wrong-file"]> ∅))) None)
              None "api_key" (or_intror eq_refl))
    as (c & c' & Hload & _ & _ & Hk).
  exists c. exact (conj Hload Hk).
Defined.

Lemma defaults_lookup (k : string) :
  DEFAULTS !! k =
    match DEFAULT_SENSITIVE_CONFIG !! k with
    | Some v => Some v
    | None => DEFAULT_MAIN_CONFIG !! k
    end.
Proof.
  unfold DEFAULTS. rewrite lookup_union.
  destruct (DEFAULT_SENSITIVE_CONFIG !! k), (DEFAULT_MAIN_CONFIG !! k); reflexivity.
Qed.

(** the seven keys that have a built-in default *)
Lemma default_keys (k : string) :
  is_Some (DEFAULTS !! k) ->
  k = "hotkey" \/ k = "api_key" \/ k = "model" \/ k = "language"
  \/ k = "energy_threshold" \/ k = "record_timeout" \/ k = "phrase_timeout".
Proof.
  rewrite defaults_lookup. unfold DEFAULT_SENSITIVE_CONFIG, DEFAULT_MAIN_CONFIG.
  repeat (rewrite lookup_insert; case_decide; [subst; auto 10 |]).
  rewrite !lookup_empty. intros [v Hv]. discriminate.
Qed.

(** X18. Loading never fails and never leaves a default key out: whether
    each of the two files holds a JSON object, content that is rejected, or
    is missing, every key that has a built-in default is present in the
    loaded mapping, so later reads of [model] or [language] find a value;
    and a key the files do not mention has its built-in default.  Loading
    changes nothing. *)
Theorem load_always_has_every_default (s : Sys) :
  exists c,
    _load_config s = (Ret c, s) /\
    (forall k, is_Some (DEFAULTS !! k) -> is_Some (c !! k)) /\
    (forall k, doc_lookup (main_file s) k = None ->
               doc_lookup (sensitive_file s) k = None ->
               c !! k = DEFAULTS !! k).
Proof.
  eexists. rewrite load_config_exec.
  split; [reflexivity |]. split.
  - intros k. rewrite load_config_lookup, defaults_lookup.
    destruct (doc_lookup (sensitive_file s) k); [eauto |].
    destruct (DEFAULT_SENSITIVE_CONFIG !! k); [eauto |].
    destruct (doc_lookup (main_file s) k); eauto.
  - intros k Hm Hs. rewrite load_config_lookup, defaults_lookup, Hm, Hs.
    reflexivity.
Qed.

Lemma save_then_load (s : Sys) :
  result _load_config (run _save_config s) = Ret (config s ∪ DEFAULTS).
Proof.
  unfold run, result. rewrite save_config_exec. cbn [snd].
  rewrite load_config_exec. cbn [fst]. f_equal.
  apply map_eq. intros k.
  rewrite load_config_lookup, lookup_union, defaults_lookup.
  cbn [main_file sensitive_file doc_lookup].
  rewrite !map_lookup_filter.
  destruct (decide (secret k)) as [Hk | Hk].
  - rewrite (secret_defaults k Hk).
    destruct (config s !! k) as [v|]; simpl.
    + rewrite option_guard_True by exact Hk. reflexivity.
    + reflexivity.
  - assert (Hd : DEFAULT_SENSITIVE_CONFIG !! k = None).
    { destruct (DEFAULT_SENSITIVE_CONFIG !! k) eqn:E; [| reflexivity].
      exfalso. apply Hk. eexists. exact E. }
    rewrite Hd.
    destruct (config s !! k) as [v|]; simpl.
    + rewrite option_guard_False by exact Hk.
      rewrite option_guard_True by exact Hk. simpl.
      destruct (DEFAULT_MAIN_CONFIG !! k); reflexivity.
    + destruct (DEFAULT_MAIN_CONFIG !! k); reflexivity.
Qed.

(** X19. Saving any configuration and loading it back gives that
    configuration, completed with the built-in default of every default key
    it does not define; a configuration that defines all seven comes back
    unchanged. *)
Theorem save_then_load_completes_with_defaults (s : Sys) :
  result _load_config (run _save_config s) = Ret (config s ∪ DEFAULTS) /\
  (forall k v, config s !! k = Some v -> (config s ∪ DEFAULTS) !! k = Some v) /\
  (forall k, config s !! k = None -> (config s ∪ DEFAULTS) !! k = DEFAULTS !! k) /\
  ((forall k, is_Some (DEFAULTS !! k) -> is_Some (config s !! k)) ->
   result _load_config (run _save_config s) = Ret (config s)).
Proof.
  split; [apply save_then_load |].
  split; [intros k v Hk; rewrite lookup_union, Hk;
          destruct (DEFAULTS !! k); reflexivity |].
  split; [intros k Hk; rewrite lookup_union, Hk;
          destruct (DEFAULTS !! k); reflexivity |].
  intros Hfull. rewrite save_then_load. f_equal.
  apply map_eq. intros k. rewrite lookup_union.
  destruct (config s !! k) as [v|] eqn:Hk.
  - destruct (DEFAULTS !! k); reflexivity.
  - destruct (DEFAULTS !! k) as [d|] eqn:Hd; [| reflexivity].
    destruct (Hfull k (ex_intro _ d Hd)) as [v Hv]. congruence.
Qed.

Lemma save_then_load_completes_with_defaults_witness :
  result _load_config
    (run _save_config (run (set_config (<["hotkey" := VStr "f9"]> ∅)) Sample.idle))
  = Ret (<["hotkey" := VStr "f9"]> ∅ ∪ DEFAULTS) /\
  result _load_config (run _save_config Sample.idle) = Ret (config Sample.idle).
Proof.
  destruct (save_then_load_completes_with_defaults
              (run (set_config (<["hotkey" := VStr "f9"]> ∅)) Sample.idle))
    as (Hpartial & _).
  destruct (save_then_load_completes_with_defaults Sample.idle) as (_ & _ & _ & Hfull).
  split; [exact Hpartial |].
  apply Hfull. intros k Hk. apply default_keys in Hk.
  repeat (destruct Hk as [-> | Hk]; [vm_compute; eauto |]).
  subst k. vm_compute. eauto.
Defined.

(** X20. The split made by [_save_config] loses nothing and mixes nothing:
    the general document never holds [hotkey] or [api_key], the secret
    document holds nothing else, no key is in both, and the two together
    are exactly the configuration.  Saving changes only the two files. *)
Theorem save_splits_without_loss (s : Sys) :
  exists g x : gmap string value,
    _save_config s =
      (Ret tt,
       mkSys (config s) (recorder s) (app_is_recording s) (hotkeys s)
             (Some (Object g)) (Some (Object x)) (tmp s) (threads s) (trace s)) /\
    g ∪ x = config s /\
    (forall k, g !! k = None \/ x !! k = None) /\
    g !! "hotkey" = None /\ g !! "api_key" = None /\
    (forall k, is_Some (x !! k) -> k = "hotkey" \/ k = "api_key").
Proof.
  exists (filter is_general (config s)), (filter is_secret (config s)).
  split; [apply save_config_exec |].
  assert (Hg : forall k, secret k -> filter is_general (config s) !! k = None).
  { intros k Hk. apply map_lookup_filter_None. right. intros v _ Hgen.
    apply Hgen. exact Hk. }
  assert (Hx : forall k, ¬ secret k -> filter is_secret (config s) !! k = None).
  { intros k Hk. apply map_lookup_filter_None. right. intros v _ Hsec.
    apply Hk. exact Hsec. }
  split; [| split; [| split; [| split]]].
  - apply map_eq. intros k. rewrite lookup_union.
    destruct (decide (secret k)) as [Hk | Hk].
    + rewrite (Hg k Hk). rewrite (left_id_L None _).
      rewrite map_lookup_filter. destruct (config s !! k); simpl; [| reflexivity].
      rewrite option_guard_True by exact Hk. reflexivity.
    + rewrite (Hx k Hk). rewrite (right_id_L None _).
      rewrite map_lookup_filter. destruct (config s !! k); simpl; [| reflexivity].
      rewrite option_guard_True by exact Hk. reflexivity.
  - intros k. destruct (decide (secret k)) as [Hk | Hk]; [left | right]; auto.
  - apply Hg, secret_keys. auto.
  - apply Hg, secret_keys. auto.
  - intros k [v Hv]. apply secret_keys.
    apply map_lookup_filter_Some in Hv as [_ Hsec]. exact Hsec.
Qed.

(** ** More on the hotkey bridge *)

Lemma register_hotkey_exec (w : World) (s : Sys) :
  register_hotkey w s =
    (Ret tt,
     mkSys (with_hotkey (config s)) (recorder s) (app_is_recording s)
           (bound w (effective_hotkey (config s)))
           (if truthy_opt (config s !! "hotkey") then main_file s
            else Some (Object (filter is_general (with_hotkey (config s)))))
           (if truthy_opt (config s !! "hotkey") then sensitive_file s
            else Some (Object (filter is_secret (with_hotkey (config s)))))
           (tmp s) (threads s) (trace s)).
Proof.
  destruct s as [cfg r air hk mf sf tm n tr].
  apply wp_eq. unfold register_hotkey, keyboard_unhook_all, keyboard_add_hotkey.
  unfold effective_hotkey, bound, with_hotkey. wp_go.
  destruct (truthy_opt (cfg !! "hotkey")); wp_go.
  - destruct (parse_hotkey w (default VNone (cfg !! "hotkey"))); wp_go; reflexivity.
  - eapply wp_use; [apply save_config_exec |]. wp_go.
    destruct (parse_hotkey w (VStr "ctrl+alt+d")); wp_go; reflexivity.
Qed.

Lemma with_hotkey_truthy (c : gmap string value) :
  truthy_opt (with_hotkey c !! "hotkey") = true.
Proof.
  unfold with_hotkey. destruct (truthy_opt (c !! "hotkey")) eqn:H; [exact H |].
  rewrite lookup_insert_eq. reflexivity.
Qed.

(** X21. Registration never raises and never leaves the configuration
    without a hotkey.  With a hotkey configured it touches neither the
    configuration nor the files.  With none configured it writes
    [ctrl+alt+d] into the configuration and into the secret document before
    it asks the keyboard library, so the default is stored (and comes back
    on the next load) even when the library then refuses it. *)
Theorem registration_fills_in_the_default_hotkey (w : World) (s : Sys) :
  result (register_hotkey w) s = Ret tt /\
  truthy_opt (config (run (register_hotkey w) s) !! "hotkey") = true /\
  trace (run (register_hotkey w) s) = trace s /\
  recorder (run (register_hotkey w) s) = recorder s /\
  (truthy_opt (config s !! "hotkey") = true ->
   config (run (register_hotkey w) s) = config s /\
   main_file (run (register_hotkey w) s) = main_file s /\
   sensitive_file (run (register_hotkey w) s) = sensitive_file s) /\
  (truthy_opt (config s !! "hotkey") = false ->
   config (run (register_hotkey w) s) = <["hotkey" := VStr "ctrl+alt+d"]> (config s) /\
   doc_lookup (sensitive_file (run (register_hotkey w) s)) "hotkey"
     = Some (VStr "ctrl+alt+d") /\
   exists c, result _load_config (run (register_hotkey w) s) = Ret c /\
             c !! "hotkey" = Some (VStr "ctrl+alt+d")).
Proof.
  unfold result, run. rewrite register_hotkey_exec. cbn [fst snd].
  cbn [config trace recorder main_file sensitive_file].
  split; [reflexivity |]. split; [apply with_hotkey_truthy |].
  split; [reflexivity |]. split; [reflexivity |].
  unfold with_hotkey.
  split; intros Hset; rewrite Hset; [repeat split |].
  assert (Hfile : filter is_secret (<["hotkey" := VStr "ctrl+alt+d"]> (config s))
                    !! "hotkey" = Some (VStr "ctrl+alt+d")).
  { apply map_lookup_filter_Some. split; [apply lookup_insert_eq |].
    apply secret_keys. auto. }
  split; [reflexivity |]. split; [exact Hfile |].
  eexists. rewrite load_config_exec. cbn [fst]. split; [reflexivity |].
  rewrite load_config_lookup. cbn [sensitive_file doc_lookup].
  rewrite Hfile. reflexivity.
Qed.

Lemma registration_fills_in_the_default_hotkey_witness :
  config (run (register_hotkey Sample.strict) (boot None None))
  = <["hotkey" := VStr "ctrl+alt+d"]> ∅ /\
  config (run (register_hotkey Sample.strict) Sample.idle) = config Sample.idle.
Proof.
  destruct (registration_fills_in_the_default_hotkey Sample.strict (boot None None))
    as (_ & _ & _ & _ & _ & Hnone).
  destruct (registration_fills_in_the_default_hotkey Sample.strict Sample.idle)
    as (_ & _ & _ & _ & Hsome & _).
  split.
  - exact (proj1 (Hnone ltac:(vm_compute; reflexivity))).
  - exact (proj1 (Hsome ltac:(vm_compute; reflexivity))).
Defined.

(** ** Start-up *)

Lemma probing_not_settings (evs : list event) :
  Forall probing evs -> ¬ In OpenSettings evs.
Proof.
  induction 1 as [|e evs He _ IH]; intros Hin; [exact Hin |].
  destruct Hin as [-> | Hin]; [exact He | exact (IH Hin)].
Qed.

Lemma SettingsWindow_init_exec (c : gmap string value) (s : Sys) :
  exists e : string,
    SettingsWindow_init c s = (if displayable c then Ret tt else Raise e, s).
Proof.
  unfold displayable, SettingsWindow_init.
  destruct (c !! "api_key") as [[| b | z | m e | k]|];
    destruct (c !! "hotkey") as [[| b' | z' | m' e' | k']|];
    cbn [truthy];
    try destruct b; try destruct (z =? 0)%Z; try destruct (m =? 0)%Z;
    eexists; apply wp_eq; wp_go; reflexivity.
  Unshelve. all: exact EmptyString.
Qed.

Lemma TextCreatorApp_init_exec (w : World) (mf sf : option document) :
  exists (c : option string) (evs : list event) (e : string),
    TextCreatorApp_init w (boot mf sf) =
      (if negb (needs_settings (loaded_from mf sf)) || displayable (loaded_from mf sf)
       then
         (Ret tt,
          mkSys (with_hotkey (loaded_from mf sf)) (mkRecorder false [] None c) None
                (bound w (effective_hotkey (loaded_from mf sf)))
                (if truthy_opt (loaded_from mf sf !! "hotkey") then mf
                 else Some (Object (filter is_general (with_hotkey (loaded_from mf sf)))))
                (if truthy_opt (loaded_from mf sf !! "hotkey") then sf
                 else Some (Object (filter is_secret (with_hotkey (loaded_from mf sf)))))
                ∅ 0
                (evs ++ if needs_settings (loaded_from mf sf) then [OpenSettings] else []))
       else
         (Raise e,
          mkSys (loaded_from mf sf) (mkRecorder false [] None c) None [] mf sf ∅ 0 evs)) /\
    Forall probing evs.
Proof.
  match goal with
  | |- context [TextCreatorApp_init w ?s] => pattern (TextCreatorApp_init w s)
  end.
  apply wp_intro. unfold TextCreatorApp_init, boot. wp_go.
  eapply wp_use; [apply load_config_exec |]. wp_go.
  fold (loaded_from mf sf).
  unfold AudioRecorder_init. wp_go.
  match goal with
  | |- wp (_init_openai_client w) _ ?s =>
      destruct (init_openai_client_frame w s) as (b & c & evs & Heq & Hevs & _);
      eapply wp_use; [exact Heq |]
  end.
  unfold touched. wp_go.
  unfold _check_required_config. wp_go.
  fold (needs_settings (loaded_from mf sf)).
  destruct (needs_settings (loaded_from mf sf)); wp_go.
  - unfold _open_settings. wp_go.
    match goal with
    | |- wp (SettingsWindow_init ?c0) _ ?s0 =>
        destruct (SettingsWindow_init_exec c0 s0) as [e He]
    end.
    destruct (displayable (loaded_from mf sf)).
    + eapply wp_use; [exact He |]. wp_go.
      eapply wp_use; [apply register_hotkey_exec |].
      exists c, evs, e. split; [| exact Hevs].
      cbn [config recorder app_is_recording hotkeys main_file sensitive_file tmp
           threads trace].
      rewrite <- ?app_assoc. reflexivity.
    + eapply wp_use; [exact He |]. wp_go.
      exists c, evs, e. split; [| exact Hevs]. reflexivity.
  - eapply wp_use; [apply register_hotkey_exec |].
    exists c, evs, "". split; [| exact Hevs].
    cbn [config recorder app_is_recording hotkeys main_file sensitive_file tmp
         threads trace].
    rewrite ?app_nil_r. reflexivity.
Qed.

(** X22. Start-up, for any content of the two files whose key and hotkey
    the settings window can display when it is needed, and any answers from
    outside.  The application comes up without raising, Idle, with an empty
    buffer, with the indicator hidden and the two recording flags in
    agreement, with at most one hotkey hooked and with a hotkey in its
    configuration.  The settings window is opened exactly when the loaded
    configuration has no API key or no hotkey; in particular it is opened
    when there are no files at all. *)
Theorem startup_is_idle_and_prompts_when_unconfigured
    (w : World) (mf sf : option document) :
  (needs_settings (loaded_from mf sf) = true ->
   displayable (loaded_from mf sf) = true) ->
  let s := run (TextCreatorApp_init w) (boot mf sf) in
  result (TextCreatorApp_init w) (boot mf sf) = Ret tt /\
  state_of s = Idle /\
  audio_data (recorder s) = [] /\
  flags_agree s /\
  indicator_in_step s /\
  (length (hotkeys s) <= 1)%nat /\
  truthy_opt (config s !! "hotkey") = true /\
  (In OpenSettings (trace s) <->
   truthy_opt (loaded_from mf sf !! "api_key") = false
   \/ truthy_opt (loaded_from mf sf !! "hotkey") = false) /\
  (mf = None -> sf = None -> In OpenSettings (trace s)).
Proof.
  intros Hshow s.
  destruct (TextCreatorApp_init_exec w mf sf) as (c & evs & e & Heq & Hevs).
  assert (Hup : negb (needs_settings (loaded_from mf sf))
                || displayable (loaded_from mf sf) = true).
  { destruct (needs_settings (loaded_from mf sf)); [| reflexivity].
    rewrite Hshow; reflexivity. }
  rewrite Hup in Heq. clear Hup Hshow.
  assert (Hs : s = snd (TextCreatorApp_init w (boot mf sf))) by reflexivity.
  unfold result. rewrite Heq in *. cbn [fst snd] in *. clear Heq.
  assert (Hprompt : In OpenSettings (trace s) <->
                    truthy_opt (loaded_from mf sf !! "api_key") = false
                    \/ truthy_opt (loaded_from mf sf !! "hotkey") = false).
  { rewrite Hs. cbn [trace]. rewrite in_app_iff.
    pose proof (probing_not_settings evs Hevs) as Hnot.
    unfold needs_settings.
    destruct (truthy_opt (loaded_from mf sf !! "api_key")),
             (truthy_opt (loaded_from mf sf !! "hotkey")); simpl;
      split; intros H; auto; try tauto;
      destruct H as [H | H]; try tauto; discriminate. }
  split; [reflexivity |].
  split; [rewrite Hs; reflexivity |].
  split; [rewrite Hs; reflexivity |].
  split; [rewrite Hs; reflexivity |].
  split.
  { rewrite Hs. unfold indicator_in_step. cbn [trace recorder is_recording].
    refine (indicator_app_silent [] _ _).
    apply Forall_app. split; [apply probing_silent; exact Hevs |].
    destruct (needs_settings _); repeat constructor. }
  split.
  { rewrite Hs. cbn [hotkeys]. unfold bound.
    destruct (parse_hotkey w _); simpl; lia. }
  split; [rewrite Hs; apply with_hotkey_truthy |].
  split; [exact Hprompt |].
  intros -> ->. apply Hprompt. left. reflexivity.
Qed.

Lemma startup_is_idle_and_prompts_when_unconfigured_witness :
  In OpenSettings (trace (run (TextCreatorApp_init Sample.strict) (boot None None))).
Proof.
  refine (proj2 (proj2 (proj2 (proj2 (proj2 (proj2 (proj2 (proj2
            (startup_is_idle_and_prompts_when_unconfigured Sample.strict None None _))))))))
            eq_refl eq_refl).
  intros _. vm_compute. reflexivity.
Defined.

(** X26. A start-up that cannot build its settings window aborts.  When the
    loaded configuration lacks an API key or a hotkey, and the value the
    files give for the key or the hotkey is one the window cannot display
    (a number or a boolean, as in a secret document with [hotkey] set to
    [0]), the constructor of [SettingsWindow] raises and the exception
    leaves [__init__]: the window is not shown, [register_hotkey] is never
    reached, so no hotkey is hooked, and the files are left as they were. *)
Theorem startup_aborts_when_window_cannot_be_built
    (w : World) (mf sf : option document) :
  needs_settings (loaded_from mf sf) = true ->
  displayable (loaded_from mf sf) = false ->
  let s := run (TextCreatorApp_init w) (boot mf sf) in
  (exists e, result (TextCreatorApp_init w) (boot mf sf) = Raise e) /\
  hotkeys s = [] /\
  ~ In OpenSettings (trace s) /\
  state_of s = Idle /\
  main_file s = mf /\
  sensitive_file s = sf.
Proof.
  intros Hneeds Hshow s.
  destruct (TextCreatorApp_init_exec w mf sf) as (c & evs & e & Heq & Hevs).
  rewrite Hneeds, Hshow in Heq. cbn [negb orb] in Heq.
  assert (Hs : s = snd (TextCreatorApp_init w (boot mf sf))) by reflexivity.
  unfold result. rewrite Heq in *. cbn [fst snd] in *. clear Heq.
  split; [eauto |].
  rewrite Hs. cbn [hotkeys trace main_file sensitive_file].
  split; [reflexivity |].
  split; [apply probing_not_settings; exact Hevs |].
  repeat split.
Qed.

Lemma startup_aborts_when_window_cannot_be_built_witness :
  hotkeys (run (TextCreatorApp_init Sample.strict)
               (boot None (Some (Object (<["hotkey" := VInt 0]> ∅)))))
  = [].
Proof.
  refine (proj1 (proj2
            (startup_aborts_when_window_cannot_be_built Sample.strict None
               (Some (Object (<["hotkey" := VInt 0]> ∅))) _ _)));
    vm_compute; reflexivity.
Defined.

(** ** The settings window *)

(** [TextCreatorApp.update_config] with a non-empty hotkey, where
    [register_hotkey] leaves the dictionary as it was given *)
Lemma update_config_exec (w : World) (c : gmap string value) (s : Sys) :
  truthy_opt (c !! "hotkey") = true ->
  exists (b : bool) (r : Recorder) (t : gmap string tmpfile) (evs : list event),
    update_config w c s =
      (Ret tt,
       mkSys c r (app_is_recording s) (bound w (default VNone (c !! "hotkey")))
             (Some (Object (filter is_general c))) (Some (Object (filter is_secret c)))
             t (threads s) (trace s ++ evs ++ [update_verdict b])) /\
    is_recording r = false /\
    audio_data r = audio_data (recorder s) /\
    keystrokes evs = [].
Proof.
  intros Hhot.
  match goal with
  | |- context [update_config w c ?s] => pattern (update_config w c s)
  end.
  apply wp_intro. unfold update_config.
  destruct s as [cfg r0 air hk mf sf tm n tr]. wp_go.
  eapply wp_use; [apply save_config_exec |]. wp_go.
  eapply wp_use; [apply register_hotkey_exec |]. wp_go.
  unfold with_hotkey, effective_hotkey. rewrite Hhot.
  match goal with
  | |- wp (recorder_update_config w c) _ ?s0 =>
      destruct (recorder_update_config_exec w c s0)
        as (b & r & t & evs & Heq & Hidle & Hdata & Hks);
      eapply wp_use; [exact Heq |]
  end.
  wp_go. exists b, r, t, evs. auto.
Qed.

(** X23. Declining changes nothing.  When the key typed into the settings
    window is rejected by the probe and the user answers "No" to "Save
    Anyway?", the window stays open and the application is exactly as
    before: configuration, both files, hooked hotkeys and recorder are
    untouched; the only trace of the attempt is the probe itself. *)
Theorem declined_settings_change_nothing
    (w : World) (s : Sys) (window_config : gmap string value)
    (hotkey_text api_key_text e : string) :
  no_key_given (PyStr.strip api_key_text) = false ->
  models_list w (PyStr.strip api_key_text) = Some e ->
  result (save_settings w false window_config hotkey_text api_key_text) s
    = Ret ([probe_warning e; save_anyway_question], false) /\
  run (save_settings w false window_config hotkey_text api_key_text) s
    = mkSys (config s) (recorder s) (app_is_recording s) (hotkeys s) (main_file s)
            (sensitive_file s) (tmp s) (threads s)
            (trace s ++ [ModelsList (PyStr.strip api_key_text)]).
Proof.
  intros Hgiven Hrejected.
  unfold result, run.
  match goal with
  | |- context [save_settings ?a ?b ?c ?d ?e0 s] => pattern (save_settings a b c d e0 s)
  end.
  apply wp_intro. unfold save_settings. rewrite Hgiven.
  destruct s as [cfg r air hk mf sf tm n tr]. wp_go.
  rewrite Hrejected. wp_go. split; reflexivity.
Qed.

Lemma declined_settings_change_nothing_witness :
  result (save_settings Later.revoked false (config Sample.idle) "f10" " sk-new ")
         Sample.idle
    = Ret ([probe_warning "Error code: 401"; save_anyway_question], false) /\
  run (save_settings Later.revoked false (config Sample.idle) "f10" " sk-new ")
      Sample.idle
    = mkSys (config Sample.idle) (recorder Sample.idle) (app_is_recording Sample.idle)
            (hotkeys Sample.idle) (main_file Sample.idle) (sensitive_file Sample.idle)
            (tmp Sample.idle) (threads Sample.idle)
            (trace Sample.idle ++ [ModelsList (PyStr.strip " sk-new ")]).
Proof.
  apply (declined_settings_change_nothing
           Later.revoked Sample.idle (config Sample.idle) "f10" " sk-new "
           "Error code: 401");
    vm_compute; reflexivity.
Defined.

Lemma new_config_hotkey (h a : string) (wc : gmap string value) :
  (new_config h a ∪ wc) !! "hotkey" = Some (VStr h).
Proof.
  rewrite lookup_union. unfold new_config. rewrite lookup_insert_eq.
  destruct (wc !! "hotkey"); reflexivity.
Qed.

Lemma new_config_api_key (h a : string) (wc : gmap string value) :
  (new_config h a ∪ wc) !! "api_key" = Some (VStr (PyStr.strip a)).
Proof.
  rewrite lookup_union. unfold new_config.
  rewrite !lookup_insert_ne by discriminate. rewrite lookup_insert_eq.
  destruct (wc !! "api_key"); reflexivity.
Qed.

Lemma new_config_language (h a : string) (wc : gmap string value) :
  (new_config h a ∪ wc) !! "language" = Some (VStr "en").
Proof.
  rewrite lookup_union. unfold new_config.
  rewrite lookup_insert_ne by discriminate. rewrite lookup_insert_eq.
  destruct (wc !! "language"); reflexivity.
Qed.

Lemma save_settings_applied
    (w : World) (yes : bool) (s : Sys) (wc : gmap string value) (h a : string) :
  PyStr.nonempty h = true ->
  no_key_given (PyStr.strip a) = true \/
  models_list w (PyStr.strip a) = None \/
  yes = true ->
  exists (dialogs : list dialog) (b : bool) (r : Recorder) (t : gmap string tmpfile)
         (evs : list event),
    save_settings w yes wc h a s =
      (Ret (dialogs, true),
       mkSys (new_config h a ∪ wc) r (app_is_recording s) (bound w (VStr h))
             (Some (Object (filter is_general (new_config h a ∪ wc))))
             (Some (Object (filter is_secret (new_config h a ∪ wc))))
             t (threads s) (trace s ++ evs ++ [update_verdict b])) /\
    is_recording r = false /\
    keystrokes evs = [].
Proof.
  intros Hh Happlied.
  assert (Hhot : truthy_opt ((new_config h a ∪ wc) !! "hotkey") = true)
    by (rewrite new_config_hotkey; exact Hh).
  assert (Hupd : forall s0 : Sys,
            exists (b : bool) (r : Recorder) (t : gmap string tmpfile) (evs : list event),
              update_config w (new_config h a ∪ wc) s0 =
                (Ret tt,
                 mkSys (new_config h a ∪ wc) r (app_is_recording s0) (bound w (VStr h))
                       (Some (Object (filter is_general (new_config h a ∪ wc))))
                       (Some (Object (filter is_secret (new_config h a ∪ wc))))
                       t (threads s0) (trace s0 ++ evs ++ [update_verdict b])) /\
              is_recording r = false /\ keystrokes evs = []).
  { intros s0.
    destruct (update_config_exec w _ s0 Hhot) as (b & r & t & evs & Heq & Hidle & _ & Hks).
    rewrite new_config_hotkey in Heq. exists b, r, t, evs. auto. }
  match goal with
  | |- context [save_settings w yes wc h a s] => pattern (save_settings w yes wc h a s)
  end.
  apply wp_intro. unfold save_settings.
  destruct s as [cfg r0 air hk mf sf tm n tr].
  destruct (no_key_given (PyStr.strip a)) eqn:Hgiven.
  - match goal with
    | |- wp _ _ ?s0 =>
        destruct (Hupd s0) as (b & r & t & evs & Heq & Hidle & Hks)
    end.
    wp_go. eapply wp_use; [exact Heq |]. wp_go.
    eexists _, b, r, t, evs. auto.
  - wp_go. destruct (models_list w (PyStr.strip a)) as [e|] eqn:Hprobe; wp_go.
    + destruct yes; [| destruct Happlied as [? | [? | ?]]; discriminate].
      wp_go.
      match goal with
      | |- wp (update_config _ _) _ ?s0 =>
          destruct (Hupd s0) as (b & r & t & evs & Heq & Hidle & Hks)
      end.
      eapply wp_use; [exact Heq |]. wp_go.
      eexists _, b, r, t, (ModelsList (PyStr.strip a) :: evs).
      flatten. auto.
    + match goal with
      | |- wp (update_config _ _) _ ?s0 =>
          destruct (Hupd s0) as (b & r & t & evs & Heq & Hidle & Hks)
      end.
      eapply wp_use; [exact Heq |]. wp_go.
      eexists _, b, r, t, (ModelsList (PyStr.strip a) :: evs).
      flatten. auto.
Qed.

(** X24. Saved settings take effect everywhere at once.  When the window is
    saved with a non-empty hotkey and the settings are applied (no key was
    given, or the probe accepted the key, or the user chose to save anyway),
    the window closes and the application holds the typed hotkey, the
    trimmed key and the language [en], with every other entry of the window
    as it was; a later load reads that configuration back from the two
    files, completed with the built-in defaults; the hooked hotkey is the typed one (none if the
    keyboard library rejects it); the recorder is Idle, and nothing was
    typed on the way. *)
Theorem applied_settings_take_effect
    (w : World) (yes : bool) (s : Sys) (wc : gmap string value) (h a : string) :
  PyStr.nonempty h = true ->
  no_key_given (PyStr.strip a) = true \/
  models_list w (PyStr.strip a) = None \/
  yes = true ->
  let s' := run (save_settings w yes wc h a) s in
  (exists dialogs, result (save_settings w yes wc h a) s = Ret (dialogs, true)) /\
  config s' !! "hotkey" = Some (VStr h) /\
  config s' !! "api_key" = Some (VStr (PyStr.strip a)) /\
  config s' !! "language" = Some (VStr "en") /\
  (forall k, k <> "hotkey" -> k <> "api_key" -> k <> "language" ->
             config s' !! k = wc !! k) /\
  result _load_config s' = Ret (config s' ∪ DEFAULTS) /\
  hotkeys s' = bound w (VStr h) /\
  state_of s' = Idle /\
  keystrokes (events_since s s') = [].
Proof.
  intros Hh Happlied s'.
  destruct (save_settings_applied w yes s wc h a Hh Happlied)
    as (dialogs & b & r & t & evs & Heq & Hidle & Hks).
  subst s'. unfold result, run, state_of. rewrite Heq. cbn [fst snd].
  erewrite events_since_app by reflexivity.
  cbn [config recorder hotkeys].
  split; [eauto |].
  split; [apply new_config_hotkey |].
  split; [apply new_config_api_key |].
  split; [apply new_config_language |].
  split.
  { intros k H1 H2 H3. rewrite lookup_union. unfold new_config.
    rewrite !lookup_insert_ne by congruence. rewrite lookup_empty.
    destruct (wc !! k); reflexivity. }
  split.
  { match goal with
    | |- fst (_load_config ?s1) = _ =>
        pose proof (save_then_load s1) as Hload;
        unfold run, result in Hload; rewrite save_config_exec in Hload;
        cbn [snd config recorder app_is_recording hotkeys tmp threads trace] in Hload;
        exact Hload
    end. }
  split; [reflexivity |].
  split; [rewrite Hidle; reflexivity |].
  rewrite keystrokes_app, Hks. reflexivity.
Qed.

Lemma applied_settings_take_effect_witness :
  hotkeys (run (save_settings Later.revoked true (config Sample.idle) "f10" " sk-new ")
               Sample.recording)
  = bound Later.revoked (VStr "f10").
Proof.
  refine (proj1 (proj2 (proj2 (proj2 (proj2 (proj2 (proj2
            (applied_settings_take_effect Later.revoked true Sample.recording
               (config Sample.idle) "f10" " sk-new " _ _)))))))).
  - reflexivity.
  - right. right. reflexivity.
Defined.

(** X25. Settings saved during a session cost a press.  [update_config]
    ends a running session through the recorder but never resets the
    application's own recording flag, and whatever the recorder transcribed
    while stopping is dropped.  So when the flag is up and settings with a
    non-empty hotkey are saved, the recorder is Idle and nothing was typed,
    while the flag still says "recording": the next press of the hotkey
    takes the stop branch and only clears the flag. *)
Theorem settings_saved_mid_session_cost_a_press
    (w w' : World) (c : gmap string value) (s : Sys) :
  app_is_recording s = Some true ->
  truthy_opt (c !! "hotkey") = true ->
  let s1 := run (update_config w c) s in
  result (update_config w c) s = Ret tt /\
  state_of s1 = Idle /\
  app_is_recording s1 = Some true /\
  keystrokes (events_since s s1) = [] /\
  result (toggle_recording w') s1 = Ret tt /\
  run (toggle_recording w') s1 = released s1.
Proof.
  intros Happ Hhot s1.
  destruct (update_config_exec w c s Hhot) as (b & r & t & evs & Heq & Hidle & _ & Hks).
  assert (Hs1 : s1 = snd (update_config w c s)) by reflexivity.
  rewrite Heq in Hs1. cbn [snd] in Hs1. rewrite Happ in Hs1.
  assert (Hidle' : is_recording (recorder (released s1)) = false)
    by (rewrite Hs1; exact Hidle).
  assert (Hflag : app_is_recording s1 = Some true)
    by (rewrite Hs1; reflexivity).
  pose proof (toggle_recording_stops w' s1 _ "" Hflag
                (stop_recording_idle w' (released s1) Hidle')) as Htoggle.
  split; [unfold result; rewrite Heq; reflexivity |].
  split; [unfold state_of; rewrite Hs1; cbn [recorder]; rewrite Hidle; reflexivity |].
  split; [exact Hflag |].
  split.
  { erewrite events_since_app
      by (rewrite Hs1; cbn [trace]; reflexivity).
    rewrite keystrokes_app, Hks. destruct b; reflexivity. }
  split; [unfold result; rewrite Htoggle; reflexivity |].
  change (snd (toggle_recording w' s1) = released s1).
  rewrite Htoggle. cbn [snd].
  unfold typed. cbn [PyStr.nonempty andb]. rewrite app_nil_r. reflexivity.
Qed.

Lemma settings_saved_mid_session_cost_a_press_witness :
  run (toggle_recording (Sample.online Posix (inl "hello")))
      (run (update_config (Sample.online Posix (inl "hello")) (config Sample.idle))
           Sample.captured)
  = released (run (update_config (Sample.online Posix (inl "hello")) (config Sample.idle))
                  Sample.captured).
Proof.
  refine (proj2 (proj2 (proj2 (proj2 (proj2
            (settings_saved_mid_session_cost_a_press
               (Sample.online Posix (inl "hello")) (Sample.online Posix (inl "hello"))
               (config Sample.idle) Sample.captured _ _)))))).
  - vm_compute. reflexivity.
  - vm_compute. reflexivity.
Defined.
